(** * Scan-and-scroll cursor and multi-termvector request of the elastic client

  A shallow embedding of [scan.go] and [mtermvector.go].  Go strings are
  byte sequences and are modelled by [string]; [map[string]T] values are
  finite maps; the HTTP client, which the two services only call, is an
  explicit world that records every request and replays scripted replies. *)

From Stdlib Require Import ZArith Ascii String DecimalString.
From stdpp Require Import base option list gmap strings fin_maps sorting.

Set Warnings "-register-all".

Open Scope string_scope.
Open Scope Z_scope.

(** ** Go library functions used by the two files *)

Module GoLib.

(** [strings.Join(elems, sep)] *)
Fixpoint Join (elems : list string) (sep : string) : string :=
  match elems with
  | [] => ""
  | [x] => x
  | x :: rest => x ++ sep ++ Join rest sep
  end.

(** [fmt.Sprintf("%v", b)] for a bool *)
Definition Sprint_bool (b : bool) : string := if b then "true" else "false".

(** [fmt.Sprintf("%d", n)] for an int *)
Definition Sprint_int (n : Z) : string := NilZero.string_of_int (Z.to_int n).

Definition upperhex : string := "0123456789ABCDEF".

Definition hex_digit (n : N) : ascii :=
  match String.get (N.to_nat n) upperhex with
  | Some c => c
  | None => "0"%char
  end.

Definition in_range (lo hi c : ascii) : bool :=
  ((N_of_ascii lo <=? N_of_ascii c) && (N_of_ascii c <=? N_of_ascii hi))%N.

(** [shouldEscape(c, encodeQueryComponent)] of net/url (RFC 3986):
    letters, digits and [-_.~] are kept, every other byte is escaped. *)
Definition shouldEscape (c : ascii) : bool :=
  if in_range "a" "z" c || in_range "A" "Z" c || in_range "0" "9" c then false
  else if (Ascii.eqb c "-" || Ascii.eqb c "_" || Ascii.eqb c "." || Ascii.eqb c "~")%char
  then false
  else true.

(** [url.QueryEscape] *)
Fixpoint QueryEscape (s : string) : string :=
  match s with
  | EmptyString => EmptyString
  | String c rest =>
      if Ascii.eqb c " " then String "+" (QueryEscape rest)
      else if shouldEscape c then
        String "%" (String (hex_digit (N_of_ascii c / 16))
                      (String (hex_digit (N_of_ascii c mod 16)) (QueryEscape rest)))
      else String c (QueryEscape rest)
  end.

(** [url.Values], a [map[string][]string] *)
Abbreviation Values := (gmap string (list string)).

(** [v.Set(key, value)] *)
Definition Values_Set (key value : string) (v : Values) : Values :=
  <[key := [value]]> v.

Definition key_le (p q : string * list string) : Prop :=
  String.leb p.1 q.1 = true.

#[global] Instance key_le_dec p q : Decision (key_le p q).
Proof. unfold key_le. apply _. Defined.

(** [v.Encode()]: keys in sorted order, [k=v] pairs joined by [&]. *)
Definition Values_Encode (v : Values) : string :=
  Join
    (mbind (fun kv : string * list string =>
              (fun x => QueryEscape kv.1 ++ "=" ++ QueryEscape x) <$> kv.2)
           (merge_sort key_le (map_to_list v)))
    "&".

End GoLib.

Import GoLib.

(** ** JSON values handed to the request encoder *)

(** A value stored in a [map[string]interface{}] request body.  [VOpaque]
  stands for a caller-supplied [interface{}] (a document, a query source)
  whose encoding is left to [encoding/json]. *)
Inductive Value : Type :=
| VString (s : string)
| VBool (b : bool)
| VStrings (l : list string)
| VStringMap (m : gmap string string)
| VList (l : list Value)
| VObject (m : gmap string Value)
| VOpaque (raw : string).

(** ** Search results and their wire form *)

(** Modelled from the spec: [SearchHit], [SearchHits] and [SearchResult] are
  declared in search.go, which is not among the sources.  The fields kept
  are the ones the cursor consumes: [_scroll_id], [hits.total] and
  [hits.hits].  A document is kept as its raw text. *)
Definition SearchHit : Type := string.

Module SearchHits.
Record t : Type := mk {
  TotalHits : Z;                 (* int64, json "total" *)
  Hits : list SearchHit          (* []*SearchHit, json "hits" *)
}.
End SearchHits.

Module SearchResult.
Record t : Type := mk {
  ScrollId : string;             (* json "_scroll_id" *)
  Hits : option SearchHits.t     (* *SearchHits, json "hits" *)
}.
End SearchResult.

(** Modelled from the spec: [TermvectorsResponse] is declared in
  termvectors.go, which is not among the sources; kept as raw text. *)
Definition TermvectorsResponse : Type := string.

(** One key of a JSON object as [encoding/json] sees it: missing, [null],
  a value of a type the target field cannot hold, or a usable value. *)
Inductive jfield (A : Type) : Type :=
| Absent
| Null
| Mistyped
| Present (a : A).
Arguments Absent {A}.
Arguments Null {A}.
Arguments Mistyped {A}.
Arguments Present {A} a.

Record HitsJson : Type := mkHitsJson {
json_total : jfield Z;
json_hits : jfield (list SearchHit)
}.

Record JsonObject : Type := mkJsonObject {
json_scroll_id : jfield string;
json_hits_object : jfield HitsJson;
json_docs : jfield (list TermvectorsResponse)
}.

(** A response body: not JSON at all, a JSON value that is not an object,
  or an object seen through the keys the two decoders read. *)
Inductive Payload : Type :=
| Malformed
| NotAnObject
| Object (o : JsonObject).

Module Json.

Definition int64_min : Z := - 2 ^ 63.
Definition int64_max : Z := 2 ^ 63 - 1.
Definition fits_int64 (z : Z) : bool := (int64_min <=? z) && (z <=? int64_max).

(** Decoding one key into a string field: a missing key and [null] leave
    the field alone, a mistyped value leaves it alone and is reported. *)
Definition decode_string (f : jfield string) (old : string) : string * bool :=
  match f with
  | Absent | Null => (old, true)
  | Mistyped => (old, false)
  | Present s => (s, true)
  end.

Definition decode_int64 (f : jfield Z) (old : Z) : Z * bool :=
  match f with
  | Absent | Null => (old, true)
  | Mistyped => (old, false)
  | Present z => if fits_int64 z then (z, true) else (old, false)
  end.

(** A JSON array replaces the slice; [null] makes it nil. *)
Definition decode_slice {A} (f : jfield (list A)) (old : list A) : list A * bool :=
  match f with
  | Absent => (old, true)
  | Null => ([], true)
  | Mistyped => (old, false)
  | Present l => (l, true)
  end.

Definition decode_hits (j : HitsJson) (old : SearchHits.t) : SearchHits.t * bool :=
  let '(total, ok1) := decode_int64 (json_total j) (SearchHits.TotalHits old) in
  let '(hits, ok2) := decode_slice (json_hits j) (SearchHits.Hits old) in
  (SearchHits.mk total hits, ok1 && ok2).

Definition zero_hits : SearchHits.t := SearchHits.mk 0 [].

(** Decoding into a [*SearchHits]: [null] sets the pointer to nil, any
    other value allocates the struct when the pointer is nil and then
    decodes into the struct the pointer refers to. *)
Definition decode_hits_ptr (f : jfield HitsJson) (old : option SearchHits.t)
  : option SearchHits.t * bool :=
  match f with
  | Absent => (old, true)
  | Null => (None, true)
  | Mistyped => (Some (default zero_hits old), false)
  | Present j =>
      let '(h, ok) := decode_hits j (default zero_hits old) in (Some h, ok)
  end.

(** [json.NewDecoder(body).Decode(target)] for a [*SearchResult] target.
    The target is updated in place: the result is the new content of the
    target and whether decoding succeeded.  A syntax error is found before
    anything is stored; a type error is reported after the other keys
    have been stored. *)
Definition Decode (body : Payload) (target : SearchResult.t) : SearchResult.t * bool :=
  match body with
  | Malformed => (target, false)
  | NotAnObject => (target, false)
  | Object o =>
      let '(sid, ok1) := decode_string (json_scroll_id o) (SearchResult.ScrollId target) in
      let '(hits, ok2) := decode_hits_ptr (json_hits_object o) (SearchResult.Hits target) in
      (SearchResult.mk sid hits, ok1 && ok2)
  end.

(** The JSON object a server sends for a complete page: every key the
    cursor reads is present. *)
Definition of_hits (h : SearchHits.t) : HitsJson :=
  mkHitsJson (Present (SearchHits.TotalHits h)) (Present (SearchHits.Hits h)).

Definition of_result (r : SearchResult.t) : JsonObject :=
  mkJsonObject (Present (SearchResult.ScrollId r))
               (match SearchResult.Hits r with
                | None => Null
                | Some h => Present (of_hits h)
                end)
               Absent.

End Json.

(** ** The HTTP client as a recorded, scripted world *)

Inductive error : Type :=
| EOS                                (* var EOS *)
| ErrNoScrollId                      (* var ErrNoScrollId *)
| ErrNewRequest (msg : string)       (* client.NewRequest failed *)
| ErrTransport (msg : string)        (* the exchange itself failed *)
| ErrResponse (msg : string)         (* checkResponse rejected the reply *)
| ErrDecode                          (* encoding/json rejected the body *)
| ErrTemplate (msg : string)         (* uritemplates.Expand failed *)
| ErrValidate (msg : string).        (* fmt.Errorf in Validate *)

Inductive result (A : Type) : Type :=
| Ok (a : A)
| Err (e : error).
Arguments Ok {A} a.
Arguments Err {A} e.

Inductive RequestBody : Type :=
| NoBody
| BodyString (s : string)                 (* req.SetBodyString *)
| BodyJson (m : gmap string Value).       (* req.SetBodyJson *)

Record Request : Type := mkRequest {
  Method : string;
  URL : string;          (* path and query, relative to the server address *)
  Body : RequestBody
}.

Record Response : Type := mkResponse {
  StatusCode : Z;
  ResponseBody : Payload
}.

(** What the server side does with one exchange. *)
Inductive RoundTrip : Type :=
| NetError (msg : string)
| Reply (res : Response).

(** One use of the network. *)
Inductive Call : Type :=
| HttpDo (req : Request)                                   (* client.c.Do *)
| Perform (method path : string) (params : Values) (body : Value).
                                                           (* client.PerformRequest *)

(** Debug output: [httputil.DumpRequestOut] and [httputil.DumpResponse],
    printed with [fmt.Printf] by the service and [log.Printf] by the cursor. *)
Inductive Dump : Type :=
| PrintRequest (req : Request)
| PrintResponse (res : Response)
| LogRequest (req : Request)
| LogResponse (res : Response).

Record World : Type := mkWorld {
  script : list RoundTrip;   (* what the server will answer, in order *)
  calls : list Call;         (* every exchange attempted so far, oldest first *)
  output : list Dump         (* everything printed so far, oldest first *)
}.

Module Client.

Definition emit (d : Dump) (w : World) : World :=
  mkWorld (script w) (calls w) (output w ++ [d])%list.

(** One exchange: the call is recorded and the next scripted answer is
    consumed; a server with nothing left to say is a failed exchange. *)
Definition exchange (c : Call) (w : World) : RoundTrip * World :=
  match script w with
  | [] => (NetError "EOF", mkWorld [] (calls w ++ [c])%list (output w))
  | a :: rest => (a, mkWorld rest (calls w ++ [c])%list (output w))
  end.

Section Collaborators.

(** [client.NewRequest] and [checkResponse] are declared in client.go and
    request.go, which are not among the sources: whether a URL is refused
    and which replies count as failures are left open. *)
Variable newRequestError : string -> string -> option string.
Variable checkResponse : Response -> option string.

(** [c.client.NewRequest(method, urls)] *)
Definition NewRequest (method urls : string) : result Request :=
  match newRequestError method urls with
  | Some msg => Err (ErrNewRequest msg)
  | None => Ok (mkRequest method urls NoBody)
  end.

(** [c.client.c.Do(req)] *)
Definition Do (req : Request) (w : World) : result Response * World :=
  match exchange (HttpDo req) w with
  | (NetError msg, w') => (Err (ErrTransport msg), w')
  | (Reply res, w') => (Ok res, w')
  end.

(** Modelled from the spec: [client.PerformRequest] is declared in
    client.go, which is not among the sources.  It performs one blocking
    exchange and returns a status-checked response or an error. *)
Definition PerformRequest (method path : string) (params : Values) (body : Value)
    (w : World) : result Response * World :=
  match exchange (Perform method path params body) w with
  | (NetError msg, w') => (Err (ErrTransport msg), w')
  | (Reply res, w') =>
      match checkResponse res with
      | Some msg => (Err (ErrResponse msg), w')
      | None => (Ok res, w')
      end
  end.

End Collaborators.

End Client.

(** ** scan.go *)

Definition defaultKeepAlive : string := "5m".

(** [int] arithmetic: 64-bit two's complement. *)
Definition wrap_int (z : Z) : Z := (z + 2 ^ 63) mod 2 ^ 64 - 2 ^ 63.

(** What a call of [Next] hands back: [(c.Results, nil)], [(nil, err)], or
    a nil-pointer panic when the cursor holds no result at all. *)
Inductive Outcome : Type :=
| Page (r : SearchResult.t)
| Failed (e : error)
| Panic.

Module ScanCursor.

Record t : Type := mk {
  Results : option SearchResult.t;   (* *SearchResult, nil is [None] *)
  keepAlive : string;
  pretty : bool;
  debug : bool;
  currentPage : Z
}.

Definition NewScanCursor (keepAlive : string) (pretty debug : bool)
    (searchResult : option SearchResult.t) : t :=
  mk searchResult keepAlive pretty debug 0.

(** [c.TotalHits()]; [None] is the panic on a nil [c.Results]. *)
Definition TotalHits (c : t) : option Z :=
  match Results c with
  | None => None
  | Some results =>
      match SearchResult.Hits results with
      | None => Some 0
      | Some hits => Some (SearchHits.TotalHits hits)
      end
  end.

(** The condition under which [Next] stops once [currentPage > 0]. *)
Definition terminal (results : SearchResult.t) : bool :=
  match SearchResult.Hits results with
  | None => true
  | Some hits =>
      bool_decide (length (SearchHits.Hits hits) = 0%nat)
      || bool_decide (SearchHits.TotalHits hits = 0)
  end.

(** The query parameters of a continuation request. *)
Definition params (c : t) : Values :=
  let params : Values := ∅ in
  let params :=
    if pretty c then Values_Set "pretty" (Sprint_bool (pretty c)) params else params in
  if bool_decide (keepAlive c ≠ "")
  then Values_Set "scroll" (keepAlive c) params
  else Values_Set "scroll" defaultKeepAlive params.

Definition with_Results (results : SearchResult.t) (c : t) : t :=
  mk (Some results) (keepAlive c) (pretty c) (debug c) (currentPage c).

Definition next_page (c : t) : t :=
  mk (Results c) (keepAlive c) (pretty c) (debug c) (wrap_int (currentPage c + 1)).

Section Collaborators.

Variable newRequestError : string -> string -> option string.
Variable checkResponse : Response -> option string.

(** [c.Next()].  The page handed back on success is the very object the
    cursor keeps in [Results]; the outcome carries its content at the
    moment of the return. *)
Definition Next (c : t) (w : World) : Outcome * t * World :=
  match Results c with
  | None => (Panic, c, w)
  | Some results =>
      if bool_decide (0 < currentPage c) && terminal results
      then (Failed EOS, c, w)
      else if bool_decide (SearchResult.ScrollId results = "")
      then (Failed ErrNoScrollId, c, w)
      else
        let urls := "/_search/scroll" in
        let urls := urls ++ "?" ++ Values_Encode (params c) in
        match Client.NewRequest newRequestError "POST" urls with
        | Err e => (Failed e, c, w)
        | Ok req =>
            let req := mkRequest (Method req) (URL req)
                                 (BodyString (SearchResult.ScrollId results)) in
            let w := if debug c then Client.emit (LogRequest req) w else w in
            match Client.Do req w with
            | (Err e, w) => (Failed e, c, w)
            | (Ok res, w) =>
                match checkResponse res with
                | Some msg => (Failed (ErrResponse msg), c, w)
                | None =>
                    let w := if debug c then Client.emit (LogResponse res) w else w in
                    let '(results, ok) := Json.Decode (ResponseBody res) results in
                    let c := with_Results results c in
                    if ok then (Page results, next_page c, w)
                    else (Failed ErrDecode, c, w)
                end
            end
        end
  end.

(** [n] calls of [Next] in a row: the outcomes in order, and where the
    cursor and the world end up. *)
Fixpoint run (n : nat) (c : t) (w : World) : list Outcome * t * World :=
  match n with
  | O => ([], c, w)
  | S n =>
      let '(o, c, w) := Next c w in
      let '(os, c, w) := run n c w in
      (o :: os, c, w)
  end.

End Collaborators.

End ScanCursor.

Module ScanService.

Record t : Type := mk {
  indices : list string;
  types : list string;
  keepAlive : string;
  query : option Value;     (* the source of the query, nil is [None] *)
  size : option Z;          (* *int *)
  pretty : bool;
  debug : bool
}.

(** [NewScanService]; the match-all query comes from a file that is not
    among the sources and is passed in. *)
Definition NewScanService (matchAll : Value) : t :=
  mk [] [] "" (Some matchAll) None false false.

Definition Index (index : string) (s : t) : t :=
  mk (indices s ++ [index])%list (types s) (keepAlive s) (query s) (size s) (pretty s) (debug s).

Definition Indices (indices' : list string) (s : t) : t :=
  mk (indices s ++ indices')%list (types s) (keepAlive s) (query s) (size s) (pretty s) (debug s).

Definition Type_ (typ : string) (s : t) : t :=
  mk (indices s) (types s ++ [typ])%list (keepAlive s) (query s) (size s) (pretty s) (debug s).

Definition Types (types' : list string) (s : t) : t :=
  mk (indices s) (types s ++ types')%list (keepAlive s) (query s) (size s) (pretty s) (debug s).

Definition Scroll (keepAlive' : string) (s : t) : t :=
  mk (indices s) (types s) keepAlive' (query s) (size s) (pretty s) (debug s).

Definition KeepAlive (keepAlive' : string) (s : t) : t :=
  mk (indices s) (types s) keepAlive' (query s) (size s) (pretty s) (debug s).

Definition Query (query' : option Value) (s : t) : t :=
  mk (indices s) (types s) (keepAlive s) query' (size s) (pretty s) (debug s).

Definition Pretty (pretty' : bool) (s : t) : t :=
  mk (indices s) (types s) (keepAlive s) (query s) (size s) pretty' (debug s).

Definition Debug (debug' : bool) (s : t) : t :=
  mk (indices s) (types s) (keepAlive s) (query s) (size s) (pretty s) debug'.

Definition Size (size' : Z) (s : t) : t :=
  mk (indices s) (types s) (keepAlive s) (query s) (Some size') (pretty s) (debug s).

(** The query parameters of the initiation request. *)
Definition params (s : t) : Values :=
  let params : Values := ∅ in
  let params := Values_Set "search_type" "scan" params in
  let params :=
    if pretty s then Values_Set "pretty" (Sprint_bool (pretty s)) params else params in
  let params :=
    if bool_decide (keepAlive s ≠ "")
    then Values_Set "scroll" (keepAlive s) params
    else Values_Set "scroll" defaultKeepAlive params in
  match size s with
  | Some n => if bool_decide (0 < n) then Values_Set "size" (Sprint_int n) params else params
  | None => params
  end.

(** The request body: [{"query": ...}], the key left out without a query. *)
Definition body (s : t) : gmap string Value :=
  match query s with
  | Some q => <["query" := q]> ∅
  | None => ∅
  end.

Section Collaborators.

(** [cleanPathString] is declared in a file that is not among the sources. *)
Variable cleanPathString : string -> string.
Variable newRequestError : string -> string -> option string.
Variable checkResponse : Response -> option string.

(** The path built at the start of [Do], up to and including [/_search]. *)
Definition path (s : t) : string :=
  let urls := "/" in
  let indexPart := cleanPathString <$> indices s in
  let urls :=
    if bool_decide (0 < length indexPart)%nat then urls ++ Join indexPart "," else urls in
  let typesPart := cleanPathString <$> types s in
  let urls :=
    if bool_decide (0 < length typesPart)%nat
    then urls ++ "/" ++ Join typesPart "," else urls in
  urls ++ "/_search".

(** [s.Do()] *)
Definition Do (s : t) (w : World) : result ScanCursor.t * World :=
  let urls := path s in
  let params := params s in
  let urls :=
    if bool_decide (0 < base.size params)%nat then urls ++ "?" ++ Values_Encode params else urls in
  match Client.NewRequest newRequestError "POST" urls with
  | Err e => (Err e, w)
  | Ok req =>
      let req := mkRequest (Method req) (URL req) (BodyJson (body s)) in
      let w := if debug s then Client.emit (PrintRequest req) w else w in
      match Client.Do req w with
      | (Err e, w) => (Err e, w)
      | (Ok res, w) =>
          match checkResponse res with
          | Some msg => (Err (ErrResponse msg), w)
          | None =>
              let w := if debug s then Client.emit (PrintResponse res) w else w in
              let '(searchResult, ok) :=
                Json.Decode (ResponseBody res) (SearchResult.mk "" None) in
              if ok
              then (Ok (ScanCursor.NewScanCursor (keepAlive s) (pretty s) (debug s)
                                                 (Some searchResult)), w)
              else (Err ErrDecode, w)
          end
      end
  end.

End Collaborators.

End ScanService.

(** ** mtermvector.go *)

Module MultiTermvectorItem.

Record t : Type := mk {
  index : string;
  typ : string;
  id : string;
  doc : option Value;                            (* interface{} *)
  fieldStatistics : option bool;                 (* *bool *)
  fields : option (list string);                 (* nil is [None] *)
  perFieldAnalyzer : option (gmap string string);
  offsets : option bool;
  parent : string;
  payloads : option bool;
  positions : option bool;
  preference : string;
  realtime : option bool;
  routing : string;
  termStatistics : option bool
}.

Definition NewMultiTermvectorItem : t :=
  mk "" "" "" None None None None None "" None None "" None "" None.

Definition Index (index' : string) (s : t) : t :=
  mk index' (typ s) (id s) (doc s) (fieldStatistics s) (fields s) (perFieldAnalyzer s)
     (offsets s) (parent s) (payloads s) (positions s) (preference s) (realtime s)
     (routing s) (termStatistics s).

Definition Type_ (typ' : string) (s : t) : t :=
  mk (index s) typ' (id s) (doc s) (fieldStatistics s) (fields s) (perFieldAnalyzer s)
     (offsets s) (parent s) (payloads s) (positions s) (preference s) (realtime s)
     (routing s) (termStatistics s).

Definition Id (id' : string) (s : t) : t :=
  mk (index s) (typ s) id' (doc s) (fieldStatistics s) (fields s) (perFieldAnalyzer s)
     (offsets s) (parent s) (payloads s) (positions s) (preference s) (realtime s)
     (routing s) (termStatistics s).

Definition Doc (doc' : option Value) (s : t) : t :=
  mk (index s) (typ s) (id s) doc' (fieldStatistics s) (fields s) (perFieldAnalyzer s)
     (offsets s) (parent s) (payloads s) (positions s) (preference s) (realtime s)
     (routing s) (termStatistics s).

Definition FieldStatistics (fieldStatistics' : bool) (s : t) : t :=
  mk (index s) (typ s) (id s) (doc s) (Some fieldStatistics') (fields s)
     (perFieldAnalyzer s) (offsets s) (parent s) (payloads s) (positions s)
     (preference s) (realtime s) (routing s) (termStatistics s).

Definition Fields (fields' : list string) (s : t) : t :=
  mk (index s) (typ s) (id s) (doc s) (fieldStatistics s)
     (Some (default [] (fields s) ++ fields')%list) (perFieldAnalyzer s)
     (offsets s) (parent s) (payloads s) (positions s) (preference s) (realtime s)
     (routing s) (termStatistics s).

Definition PerFieldAnalyzer (perFieldAnalyzer' : option (gmap string string)) (s : t) : t :=
  mk (index s) (typ s) (id s) (doc s) (fieldStatistics s) (fields s) perFieldAnalyzer'
     (offsets s) (parent s) (payloads s) (positions s) (preference s) (realtime s)
     (routing s) (termStatistics s).

Definition Offsets (offsets' : bool) (s : t) : t :=
  mk (index s) (typ s) (id s) (doc s) (fieldStatistics s) (fields s) (perFieldAnalyzer s)
     (Some offsets') (parent s) (payloads s) (positions s) (preference s) (realtime s)
     (routing s) (termStatistics s).

Definition Parent (parent' : string) (s : t) : t :=
  mk (index s) (typ s) (id s) (doc s) (fieldStatistics s) (fields s) (perFieldAnalyzer s)
     (offsets s) parent' (payloads s) (positions s) (preference s) (realtime s)
     (routing s) (termStatistics s).

Definition Payloads (payloads' : bool) (s : t) : t :=
  mk (index s) (typ s) (id s) (doc s) (fieldStatistics s) (fields s) (perFieldAnalyzer s)
     (offsets s) (parent s) (Some payloads') (positions s) (preference s) (realtime s)
     (routing s) (termStatistics s).

Definition Positions (positions' : bool) (s : t) : t :=
  mk (index s) (typ s) (id s) (doc s) (fieldStatistics s) (fields s) (perFieldAnalyzer s)
     (offsets s) (parent s) (payloads s) (Some positions') (preference s) (realtime s)
     (routing s) (termStatistics s).

Definition Preference (preference' : string) (s : t) : t :=
  mk (index s) (typ s) (id s) (doc s) (fieldStatistics s) (fields s) (perFieldAnalyzer s)
     (offsets s) (parent s) (payloads s) (positions s) preference' (realtime s)
     (routing s) (termStatistics s).

Definition Realtime (realtime' : bool) (s : t) : t :=
  mk (index s) (typ s) (id s) (doc s) (fieldStatistics s) (fields s) (perFieldAnalyzer s)
     (offsets s) (parent s) (payloads s) (positions s) (preference s) (Some realtime')
     (routing s) (termStatistics s).

Definition Routing (routing' : string) (s : t) : t :=
  mk (index s) (typ s) (id s) (doc s) (fieldStatistics s) (fields s) (perFieldAnalyzer s)
     (offsets s) (parent s) (payloads s) (positions s) (preference s) (realtime s)
     routing' (termStatistics s).

Definition TermStatistics (termStatistics' : bool) (s : t) : t :=
  mk (index s) (typ s) (id s) (doc s) (fieldStatistics s) (fields s) (perFieldAnalyzer s)
     (offsets s) (parent s) (payloads s) (positions s) (preference s) (realtime s)
     (routing s) (Some termStatistics').

(** [if cond { source[key] = value }] *)
Definition set_if (cond : bool) (key : string) (value : Value)
    (source : gmap string Value) : gmap string Value :=
  if cond then <[key := value]> source else source.

(** [if p != nil { source[key] = ... }], the value computed from what
    [p] points to *)
Definition set_some {A} (p : option A) (key : string) (f : A -> Value)
    (source : gmap string Value) : gmap string Value :=
  match p with
  | Some a => <[key := f a]> source
  | None => source
  end.

Definition sprint (b : bool) : Value := VString (Sprint_bool b).

(** [s.Source()] *)
Definition Source (s : t) : gmap string Value :=
  let source : gmap string Value := ∅ in
  let source := <["_id" := VString (id s)]> source in
  let source := set_if (bool_decide (index s ≠ "")) "_index" (VString (index s)) source in
  let source := set_if (bool_decide (typ s ≠ "")) "_type" (VString (typ s)) source in
  let source := set_some (fields s) "fields" VStrings source in
  let source := set_some (fieldStatistics s) "field_statistics" sprint source in
  let source := set_some (offsets s) "offsets" VBool source in
  let source := set_if (bool_decide (parent s ≠ "")) "parant" (VString (parent s)) source in
  let source := set_some (payloads s) "payloads" sprint source in
  let source := set_some (positions s) "positions" sprint source in
  let source :=
    set_if (bool_decide (preference s ≠ "")) "preference" (VString (preference s)) source in
  let source := set_some (realtime s) "realtime" sprint source in
  let source := set_if (bool_decide (routing s ≠ "")) "routing" (VString (routing s)) source in
  let source := set_some (termStatistics s) "term_statistics" sprint source in
  let source := set_some (doc s) "doc" (fun d => d) source in
  match perFieldAnalyzer s with
  | Some m =>
      if bool_decide (0 < base.size m)%nat
      then <["per_field_analyzer" := VStringMap m]> source
      else source
  | None => source
  end.

End MultiTermvectorItem.

(** [MultiTermvectorResponse] *)
Record MultiTermvectorResponse : Type := mkMultiTermvectorResponse {
  Docs : list TermvectorsResponse
}.

Module MultiTermvectorService.

Record t : Type := mk {
  pretty : bool;
  index : string;
  typ : string;
  preference : string;
  realtime : option bool;
  refresh : option bool;
  docs : list MultiTermvectorItem.t   (* []*MultiTermvectorItem, read when [Do] runs *)
}.

Definition NewMultiTermvectorService : t := mk false "" "" "" None None [].

Definition Pretty (pretty' : bool) (s : t) : t :=
  mk pretty' (index s) (typ s) (preference s) (realtime s) (refresh s) (docs s).

Definition Add (docs' : list MultiTermvectorItem.t) (s : t) : t :=
  mk (pretty s) (index s) (typ s) (preference s) (realtime s) (refresh s) (docs s ++ docs')%list.

Definition Index (index' : string) (s : t) : t :=
  mk (pretty s) index' (typ s) (preference s) (realtime s) (refresh s) (docs s).

Definition Type_ (typ' : string) (s : t) : t :=
  mk (pretty s) (index s) typ' (preference s) (realtime s) (refresh s) (docs s).

(** [s.Source()] *)
Definition Source (s : t) : gmap string Value :=
  let source : gmap string Value := ∅ in
  let docs := (fun doc => VObject (MultiTermvectorItem.Source doc)) <$> docs s in
  <["docs" := VList docs]> source.

(** [s.Validate()]; [%v] prints a [[]string] between brackets, the
    elements separated by one space. *)
Definition Validate (s : t) : option error :=
  let invalid : list string := [] in
  let invalid := if bool_decide (index s = "") then (invalid ++ ["Index"])%list else invalid in
  let invalid := if bool_decide (typ s = "") then (invalid ++ ["Type"])%list else invalid in
  if bool_decide (0 < length invalid)%nat
  then Some (ErrValidate ("missing required fields: " ++ "[" ++ Join invalid " " ++ "]"))
  else None.

(** [json.Unmarshal(res.Body, ret)] for a fresh [MultiTermvectorResponse] *)
Definition Unmarshal (body : Payload) : result MultiTermvectorResponse :=
  match body with
  | Malformed | NotAnObject => Err ErrDecode
  | Object o =>
      match json_docs o with
      | Absent | Null => Ok (mkMultiTermvectorResponse [])
      | Mistyped => Err ErrDecode
      | Present l => Ok (mkMultiTermvectorResponse l)
      end
  end.

Section Collaborators.

(** [uritemplates.Expand] is declared in a package that is not among the
    sources; it hands back a path and, on failure, a message. *)
Variable Expand : string -> gmap string string -> string * option string.
Variable checkResponse : Response -> option string.

(** [s.buildURL()] *)
Definition buildURL (s : t) : result (string * Values) :=
  let '(path, err) :=
    if bool_decide (index s ≠ "") && bool_decide (typ s ≠ "")
    then Expand "/{index}/{type}/_mtermvectors"
                (<["type" := typ s]> (<["index" := index s]> ∅))
    else if bool_decide (index s ≠ "")
    then Expand "/{index}/_mtermvectors" (<["index" := index s]> ∅)
    else ("/_mtermvectors", None) in
  match err with
  | Some msg => Err (ErrTemplate msg)
  | None =>
      let params : Values := ∅ in
      let params := if pretty s then Values_Set "pretty" "1" params else params in
      let params :=
        if bool_decide (preference s ≠ "")
        then Values_Set "preference" (preference s) params else params in
      let params :=
        match realtime s with
        | Some b => Values_Set "realtime" (Sprint_bool b) params
        | None => params
        end in
      Ok (path, params)
  end.

(** [s.Do()] *)
Definition Do (s : t) (w : World) : result MultiTermvectorResponse * World :=
  match Validate s with
  | Some err => (Err err, w)
  | None =>
      match buildURL s with
      | Err err => (Err err, w)
      | Ok (path, params) =>
          let body := VObject (Source s) in
          match Client.PerformRequest checkResponse "GET" path params body w with
          | (Err err, w) => (Err err, w)
          | (Ok res, w) => (Unmarshal (ResponseBody res), w)
          end
      end
  end.

End Collaborators.

End MultiTermvectorService.

(** ** Vocabulary for the statements *)

(** The documents and the total of a page, whatever its [hits] pointer. *)
Definition documents (p : SearchResult.t) : list SearchHit :=
  match SearchResult.Hits p with
  | Some hits => SearchHits.Hits hits
  | None => []
  end.

Definition total (p : SearchResult.t) : Z :=
  match SearchResult.Hits p with
  | Some hits => SearchHits.TotalHits hits
  | None => 0
  end.

(** The reply of a server that sends page [p] in full with status [status]. *)
Definition page_reply (status : Z) (p : SearchResult.t) : RoundTrip :=
  Reply (mkResponse status (Object (Json.of_result p))).

(** A page after which the cursor goes on: it carries a token, documents
    and a total that is not zero. *)
Definition continuable (p : SearchResult.t) : Prop :=
  SearchResult.ScrollId p ≠ "" /\ documents p ≠ [] /\ total p ≠ 0.

(** Reply [res] is accepted by [checkResponse] and is page [p] sent in
    full; the total of [p] is an [int64]. *)
Definition delivers (checkResponse : Response -> option string)
    (res : Response) (p : SearchResult.t) : Prop :=
  checkResponse res = None /\
  ResponseBody res = Object (Json.of_result p) /\
  Json.fits_int64 (total p) = true.

(** The TTL a configuration stands for. *)
Definition effective_ttl (keepAlive : string) : string :=
  if bool_decide (keepAlive = "") then defaultKeepAlive else keepAlive.

(** The URL of every continuation request of cursor [c]. *)
Definition continuation_url (c : ScanCursor.t) : string :=
  "/_search/scroll?" ++ Values_Encode (ScanCursor.params c).

(** The URL of the initiation request of configuration [s]. *)
Definition initiation_url (cleanPathString : string -> string) (s : ScanService.t) : string :=
  ScanService.path cleanPathString s ++ "?" ++ Values_Encode (ScanService.params s).

(** The request [Do] sends for configuration [s]. *)
Definition initiation_request (cleanPathString : string -> string) (s : ScanService.t)
    : Request :=
  mkRequest "POST" (initiation_url cleanPathString s) (BodyJson (ScanService.body s)).

(** One call of the exported setters of the multi-termvector service. *)
Inductive Setting : Type :=
| SetPretty (pretty : bool)
| SetAdd (docs : list MultiTermvectorItem.t)
| SetIndex (index : string)
| SetType (typ : string).

Definition configure (s : MultiTermvectorService.t) (x : Setting)
    : MultiTermvectorService.t :=
  match x with
  | SetPretty pretty => MultiTermvectorService.Pretty pretty s
  | SetAdd docs => MultiTermvectorService.Add docs s
  | SetIndex index => MultiTermvectorService.Index index s
  | SetType typ => MultiTermvectorService.Type_ typ s
  end.

(** A service as a caller can build it: created, then configured by
    chained calls. *)
Definition built (l : list Setting) : MultiTermvectorService.t :=
  foldl configure MultiTermvectorService.NewMultiTermvectorService l.

(** The keys an item source can hold. *)
Definition item_keys : list string :=
  ["_id"; "_index"; "_type"; "fields"; "field_statistics"; "offsets"; "parant";
   "payloads"; "positions"; "preference"; "realtime"; "routing";
   "term_statistics"; "doc"; "per_field_analyzer"].

(** How many of the outcomes are pages. *)
Fixpoint pages_returned (os : list Outcome) : Z :=
  match os with
  | [] => 0
  | Page _ :: os => 1 + pages_returned os
  | _ :: os => pages_returned os
  end.

(** The pieces of an encoded query string. *)
Definition pretty_part (pretty : bool) : string :=
  if pretty then "pretty=true&" else "".

Definition size_part (size : option Z) : string :=
  match size with
  | Some n => if bool_decide (0 < n) then "&size=" ++ QueryEscape (Sprint_int n) else ""
  | None => ""
  end.

(** One addition of names to a configuration, single or in a batch. *)
Inductive Addition : Type :=
| AddIndex (index : string)
| AddIndices (indices : list string)
| AddType (typ : string)
| AddTypes (types : list string).

Definition add (s : ScanService.t) (a : Addition) : ScanService.t :=
  match a with
  | AddIndex index => ScanService.Index index s
  | AddIndices indices => ScanService.Indices indices s
  | AddType typ => ScanService.Type_ typ s
  | AddTypes types => ScanService.Types types s
  end.

(** The additions made in order, as chained calls are. *)
Definition add_all (l : list Addition) (s : ScanService.t) : ScanService.t :=
  foldl add s l.

(** The same names, each added by a call of its own. *)
Definition one_by_one (a : Addition) : list Addition :=
  match a with
  | AddIndex index => [AddIndex index]
  | AddIndices indices => AddIndex <$> indices
  | AddType typ => [AddType typ]
  | AddTypes types => AddType <$> types
  end.

Definition index_names (a : Addition) : list string :=
  match a with
  | AddIndex index => [index]
  | AddIndices indices => indices
  | _ => []
  end.

Definition type_names (a : Addition) : list string :=
  match a with
  | AddType typ => [typ]
  | AddTypes types => types
  | _ => []
  end.

(** The requests among the calls recorded in [after] but not yet in [before]. *)
Definition new_calls (before after : World) : list Call :=
  drop (length (calls before)) (calls after).

(** A stand-in for the collaborators in the examples: every URL is
    accepted, and a reply is a failure unless its status is 2xx. *)
Definition accept_any : string -> string -> option string := fun _ _ => None.

Definition status_2xx (res : Response) : option string :=
  if bool_decide (200 <= StatusCode res <= 299) then None else Some "bad status".

Definition plain_path : string -> string := fun name => name.

Definition no_expansion : string -> gmap string string -> string * option string :=
  fun template _ => (template, None).

(** A scan over three documents: the initiation response carries the total
    and a token but no documents, then come two pages and an empty one. *)
Definition ex_seed : SearchResult.t :=
  SearchResult.mk "token0" (Some (SearchHits.mk 3 [])).
Definition ex_A : SearchResult.t :=
  SearchResult.mk "token1" (Some (SearchHits.mk 3 ["doc1"; "doc2"])).
Definition ex_B : SearchResult.t :=
  SearchResult.mk "token2" (Some (SearchHits.mk 3 ["doc3"])).
Definition ex_C : SearchResult.t :=
  SearchResult.mk "token3" (Some (SearchHits.mk 3 [])).

Definition ex_pages : list RoundTrip :=
  [page_reply 200 ex_A; page_reply 200 ex_B; page_reply 200 ex_C].

Definition ex_world : World := mkWorld ex_pages [] [].

Definition ex_cursor : ScanCursor.t :=
  ScanCursor.NewScanCursor "" false false (Some ex_seed).

(** A cursor that has stepped once and stores a result without token and
    without hit metadata. *)
Definition ex_spent : ScanCursor.t :=
  ScanCursor.mk (Some (SearchResult.mk "" None)) "" false false 1.

(** A fresh cursor whose initiation response carried no token. *)
Definition ex_tokenless : ScanCursor.t :=
  ScanCursor.NewScanCursor "" false false (Some (SearchResult.mk "" None)).

Definition ex_service : ScanService.t :=
  ScanService.Index "logs"
    (ScanService.NewScanService (VObject {["match_all" := VObject ∅]})).

Definition ex_server : World := mkWorld (page_reply 200 ex_seed :: ex_pages) [] [].

(** The server after it has answered the initiation request of [ex_service]. *)
Definition ex_started : World :=
  mkWorld ex_pages
    [HttpDo (mkRequest "POST" "/logs/_search?scroll=5m&search_type=scan"
                       (BodyJson (ScanService.body ex_service)))] [].

Definition ex_item : MultiTermvectorItem.t :=
  MultiTermvectorItem.Parent "p1"
    (MultiTermvectorItem.Id "1" MultiTermvectorItem.NewMultiTermvectorItem).

(** Collaborators and servers that fail, for the examples. *)
Definition refuse_all : string -> string -> option string :=
  fun _ _ => Some "invalid URL".

Definition bad_expansion : string -> gmap string string -> string * option string :=
  fun _ _ => ("", Some "malformed template").

Definition ex_down : World := mkWorld [NetError "connection refused"] [] [].

Definition ex_unavailable : Response := mkResponse 503 Malformed.


(** A reply without token, and one whose total is not a number. *)
Definition ex_no_token : JsonObject :=
  mkJsonObject Absent (Present (Json.of_hits (SearchHits.mk 3 ["doc1"]))) Absent.

Definition ex_bad_total : JsonObject :=
  mkJsonObject (Present "token9") (Present (mkHitsJson Mistyped (Present ["doc9"]))) Absent.

Definition ex_request : MultiTermvectorService.t :=
  MultiTermvectorService.Add [ex_item]
    (MultiTermvectorService.Type_ "doc"
       (MultiTermvectorService.Index "logs"
          MultiTermvectorService.NewMultiTermvectorService)).


(** ** The cursor *)

Section Cursor.

Variable newRequestError : string -> string -> option string.
Variable checkResponse : Response -> option string.

Local Abbreviation Next := (ScanCursor.Next newRequestError checkResponse).
Local Abbreviation run := (ScanCursor.run newRequestError checkResponse).

Lemma terminal_iff (results : SearchResult.t) :
  ScanCursor.terminal results = true <->
  SearchResult.Hits results = None \/ documents results = [] \/ total results = 0.
Proof.
  unfold ScanCursor.terminal, documents, total.
  destruct (SearchResult.Hits results) as [hits|]; [|tauto].
  rewrite orb_true_iff, !bool_decide_eq_true, length_zero_iff_nil.
  intuition discriminate.
Qed.

Lemma Next_exhausted (c : ScanCursor.t) (w : World) (results : SearchResult.t) :
  ScanCursor.Results c = Some results ->
  0 < ScanCursor.currentPage c ->
  ScanCursor.terminal results = true ->
  Next c w = (Failed EOS, c, w).
Proof.
  intros Hres Hpage Hterm. unfold ScanCursor.Next.
  rewrite Hres, Hterm, bool_decide_eq_true_2 by done. reflexivity.
Qed.

Lemma run_S (n : nat) (c : ScanCursor.t) (w : World) :
  run (S n) c w =
  let '(o, c1, w1) := Next c w in
  let '(os, c2, w2) := run n c1 w1 in (o :: os, c2, w2).
Proof. reflexivity. Qed.

(** Once [Next] has answered end-of-stream without a change, any run of
    calls does the same. *)
Lemma run_exhausted (n : nat) (c : ScanCursor.t) (w : World) (results : SearchResult.t) :
  ScanCursor.Results c = Some results ->
  0 < ScanCursor.currentPage c ->
  ScanCursor.terminal results = true ->
  run n c w = (replicate n (Failed EOS), c, w).
Proof.
  intros Hres Hpage Hterm.
  induction n as [|n IH]; [reflexivity|].
  rewrite run_S, (Next_exhausted c w results), IH by done. reflexivity.
Qed.

(** C3. A cursor with a step count above 0 whose stored page is terminal
    (no hit metadata, no documents, or a total of zero) answers every
    further [Next] with end-of-stream, and neither the cursor nor the
    world (the recorded calls included) changes. *)
Theorem exhausted_is_final (c : ScanCursor.t) (w : World) (results : SearchResult.t) :
  ScanCursor.Results c = Some results ->
  0 < ScanCursor.currentPage c ->
  (SearchResult.Hits results = None \/ documents results = [] \/ total results = 0) ->
  forall n : nat, run n c w = (replicate n (Failed EOS), c, w).
Proof.
  intros Hres Hpage Hterm%terminal_iff n. by apply (run_exhausted n c w results).
Qed.

(** What one [Next] adds to the recorded calls: nothing, or one POST to the
    continuation URL whose body is the stored token. *)
Lemma Next_calls (c : ScanCursor.t) (w : World) :
  calls (Next c w).2 = calls w \/
  exists results, ScanCursor.Results c = Some results /\
    calls (Next c w).2 =
    (calls w ++ [HttpDo (mkRequest "POST" (continuation_url c)
                                   (BodyString (SearchResult.ScrollId results)))])%list.
Proof.
  unfold ScanCursor.Next, Client.NewRequest, Client.Do, Client.exchange, continuation_url.
  destruct (ScanCursor.Results c) as [results|]; [|by left].
  repeat case_match; simplify_eq/=; eauto.
Qed.

(** [Next] never touches the configuration of the cursor. *)
Lemma Next_config (c : ScanCursor.t) (w : World) :
  ScanCursor.keepAlive (Next c w).1.2 = ScanCursor.keepAlive c /\
  ScanCursor.pretty (Next c w).1.2 = ScanCursor.pretty c /\
  ScanCursor.debug (Next c w).1.2 = ScanCursor.debug c.
Proof.
  unfold ScanCursor.Next.
  repeat case_match; simplify_eq/=; auto.
Qed.

(** The page handed back is the one the cursor now stores. *)
Lemma Next_page_stored (c c' : ScanCursor.t) (w w' : World) (p : SearchResult.t) :
  Next c w = (Page p, c', w') -> ScanCursor.Results c' = Some p.
Proof.
  unfold ScanCursor.Next.
  repeat case_match; intros; simplify_eq/=; auto.
Qed.

(** C2, amended. A cursor whose stored token is empty and that is not
    exhausted (its step count is not above 0, or its stored page is not
    terminal) fails with the missing-token error; the cursor and the world
    are left as they were, so no request is sent. *)
Theorem Next_without_token (c : ScanCursor.t) (w : World) (results : SearchResult.t) :
  ScanCursor.Results c = Some results ->
  SearchResult.ScrollId results = "" ->
  ScanCursor.currentPage c <= 0 \/ ScanCursor.terminal results = false ->
  Next c w = (Failed ErrNoScrollId, c, w).
Proof.
  intros Hres Htoken Hlive. unfold ScanCursor.Next. rewrite Hres.
  assert (bool_decide (0 < ScanCursor.currentPage c) && ScanCursor.terminal results = false)
    as ->.
  { destruct Hlive as [Hpage| ->]; [|apply andb_false_r].
    rewrite bool_decide_eq_false_2 by lia. reflexivity. }
  rewrite bool_decide_eq_true_2 by done. reflexivity.
Qed.

(** C5. Every request that a call of [Next] sends carries the stored
    scroll token, as it is, as its body. *)
Theorem continuation_body_is_token (c : ScanCursor.t) (w : World)
    (results : SearchResult.t) (req : Request) :
  ScanCursor.Results c = Some results ->
  HttpDo req ∈ new_calls w (Next c w).2 ->
  Body req = BodyString (SearchResult.ScrollId results).
Proof.
  intros Hres. unfold new_calls.
  destruct (Next_calls c w) as [-> | (results' & Hres' & ->)].
  - rewrite drop_all. intros []%elem_of_nil.
  - rewrite drop_app_length. intros Hreq%list_elem_of_singleton.
    injection Hreq as ->. simpl. congruence.
Qed.

(** C7. The accessor gives 0 when the stored result has no hit metadata
    and the stored total otherwise; the stored result is the page that the
    last successful [Next] handed back. *)
Theorem TotalHits_is_stored_total (c : ScanCursor.t) (results : SearchResult.t) :
  ScanCursor.Results c = Some results ->
  (SearchResult.Hits results = None -> ScanCursor.TotalHits c = Some 0) /\
  (forall hits, SearchResult.Hits results = Some hits ->
     ScanCursor.TotalHits c = Some (SearchHits.TotalHits hits)) /\
  (forall w p c' w', Next c w = (Page p, c', w') ->
     ScanCursor.TotalHits c' = Some (total p)).
Proof.
  intros Hres. unfold ScanCursor.TotalHits. rewrite Hres. split_and!.
  - by intros ->.
  - by intros hits ->.
  - intros w p c' w' Hnext%Next_page_stored. rewrite Hnext. unfold total.
    by destruct (SearchResult.Hits p).
Qed.

(** A page sent in full replaces whatever the cursor stored before. *)
Lemma Decode_of_result (p old : SearchResult.t) :
  Json.fits_int64 (total p) = true ->
  Json.Decode (Object (Json.of_result p)) old = (p, true).
Proof.
  destruct p as [sid [[n docs]|]]; unfold total; simpl; intros Hfits; [|reflexivity].
  unfold Json.decode_hits; simpl. rewrite Hfits. reflexivity.
Qed.

Lemma continuable_not_terminal (p : SearchResult.t) :
  continuable p -> ScanCursor.terminal p = false.
Proof.
  intros (_ & Hdocs & Htotal). apply not_true_iff_false.
  rewrite terminal_iff. unfold documents, total in *.
  destruct (SearchResult.Hits p); [intuition discriminate | done].
Qed.

(** One successful round trip. *)
Lemma Next_fetch (c : ScanCursor.t) (w : World) (results p : SearchResult.t)
    (res : Response) (rest : list RoundTrip) :
  ScanCursor.Results c = Some results ->
  ScanCursor.currentPage c <= 0 \/ ScanCursor.terminal results = false ->
  SearchResult.ScrollId results ≠ "" ->
  newRequestError "POST" (continuation_url c) = None ->
  script w = Reply res :: rest ->
  delivers checkResponse res p ->
  exists w1,
    Next c w = (Page p,
                ScanCursor.mk (Some p) (ScanCursor.keepAlive c) (ScanCursor.pretty c)
                              (ScanCursor.debug c)
                              (wrap_int (ScanCursor.currentPage c + 1)),
                w1) /\
    script w1 = rest /\
    calls w1 = (calls w ++ [HttpDo (mkRequest "POST" (continuation_url c)
                              (BodyString (SearchResult.ScrollId results)))])%list.
Proof.
  intros Hres Hlive Htoken Hurl Hscript (Hcheck & Hbody & Hfits).
  unfold ScanCursor.Next. rewrite Hres.
  assert (bool_decide (0 < ScanCursor.currentPage c) && ScanCursor.terminal results = false)
    as ->.
  { destruct Hlive as [Hpage| ->]; [|apply andb_false_r].
    rewrite bool_decide_eq_false_2 by lia. reflexivity. }
  rewrite bool_decide_eq_false_2 by done.
  unfold Client.NewRequest.
  change ("/_search/scroll" ++ "?" ++ Values_Encode (ScanCursor.params c))
    with (continuation_url c).
  rewrite Hurl. simpl.
  unfold Client.Do, Client.exchange.
  destruct (ScanCursor.debug c) eqn:Hdebug; simpl;
    rewrite Hscript, Hcheck, Hbody, Decode_of_result by done;
    unfold ScanCursor.next_page, ScanCursor.with_Results; simpl; rewrite Hdebug;
    eexists; split_and!; reflexivity.
Qed.

(** C1, amended. A cursor seeded by initiation with a token, against a
    server that answers with page A, page B (each with a token, documents
    and a total that is not zero) and then a page C without documents:
    the calls of [Next] give A, B, the empty page C, and end-of-stream from
    the fourth call on; three requests are sent in all. *)
Theorem pages_then_EOS (keepAlive : string) (pretty debug : bool)
    (seed A B C : SearchResult.t) (resA resB resC : Response)
    (rest : list RoundTrip) (w : World) :
  let c := ScanCursor.NewScanCursor keepAlive pretty debug (Some seed) in
  SearchResult.ScrollId seed ≠ "" ->
  newRequestError "POST" (continuation_url c) = None ->
  script w = Reply resA :: Reply resB :: Reply resC :: rest ->
  delivers checkResponse resA A -> continuable A ->
  delivers checkResponse resB B -> continuable B ->
  delivers checkResponse resC C -> documents C = [] ->
  forall n : nat,
    (run (4 + n) c w).1.1
      = ([Page A; Page B; Page C; Failed EOS] ++ replicate n (Failed EOS))%list /\
    length (new_calls w (run (4 + n) c w).2) = 3%nat.
Proof.
  intros c Hseed Hurl Hscript HA HcA HB HcB HC HdC n.
  destruct (Next_fetch c w seed A resA _ eq_refl (or_introl (Z.le_refl 0)) Hseed Hurl Hscript HA)
    as (w1 & Hn1 & Hs1 & Hc1).
  set (c1 := ScanCursor.mk (Some A) _ _ _ _) in Hn1.
  destruct (Next_fetch c1 w1 A B resB _ eq_refl
              (or_intror (continuable_not_terminal A HcA)) (proj1 HcA) Hurl Hs1 HB)
    as (w2 & Hn2 & Hs2 & Hc2).
  set (c2 := ScanCursor.mk (Some B) _ _ _ _) in Hn2.
  destruct (Next_fetch c2 w2 B C resC _ eq_refl
              (or_intror (continuable_not_terminal B HcB)) (proj1 HcB) Hurl Hs2 HC)
    as (w3 & Hn3 & Hs3 & Hc3).
  set (c3 := ScanCursor.mk (Some C) _ _ _ _) in Hn3.
  change (4 + n)%nat with (S (S (S (S n)))).
  rewrite run_S, Hn1, run_S, Hn2, run_S, Hn3.
  rewrite (run_exhausted (S n) c3 w3 C eq_refl) by (done || (apply terminal_iff; auto)).
  simpl. split; [reflexivity|].
  unfold new_calls. rewrite Hc3, Hc2, Hc1, <- !app_assoc, drop_app_length.
  reflexivity.
Qed.

(** The encoded parameters of a continuation request, spelled out. *)
Lemma cursor_params_encoded (c : ScanCursor.t) :
  Values_Encode (ScanCursor.params c) =
  pretty_part (ScanCursor.pretty c) ++ "scroll="
    ++ QueryEscape (effective_ttl (ScanCursor.keepAlive c)).
Proof.
  destruct c as [results keepAlive pretty debug page].
  unfold ScanCursor.params, effective_ttl; simpl.
  destruct (decide (keepAlive = "")) as [->|Hset].
  - destruct pretty; vm_compute; reflexivity.
  - rewrite bool_decide_eq_true_2, bool_decide_eq_false_2 by done.
    destruct pretty; vm_compute; reflexivity.
Qed.

Lemma continuation_url_config (c c' : ScanCursor.t) :
  ScanCursor.keepAlive c' = ScanCursor.keepAlive c ->
  ScanCursor.pretty c' = ScanCursor.pretty c ->
  continuation_url c' = continuation_url c.
Proof.
  intros Hk Hp. unfold continuation_url, ScanCursor.params. by rewrite Hk, Hp.
Qed.

(** Whatever a run of [Next] calls adds to the recorded calls is a POST
    to the continuation URL of the cursor it started from. *)
Lemma run_calls (n : nat) (c : ScanCursor.t) (w : World) :
  exists added,
    calls (run n c w).2 = (calls w ++ added)%list /\
    Forall (fun call => exists req, call = HttpDo req /\ Method req = "POST" /\
                                    URL req = continuation_url c) added.
Proof.
  revert c w. induction n as [|n IH]; intros c w.
  - exists []. simpl. by rewrite app_nil_r.
  - rewrite run_S.
    pose proof (Next_calls c w) as Hcalls. pose proof (Next_config c w) as (Hk & Hp & _).
    destruct (Next c w) as [[o c1] w1] eqn:Hnext. simpl in *.
    destruct (IH c1 w1) as (added & Hadded & Hall).
    destruct (run n c1 w1) as [[os c2] w2]. simpl in *.
    rewrite (continuation_url_config c c1 Hk Hp) in Hall.
    destruct Hcalls as [Hsame | (results & _ & Hone)].
    + exists added. by rewrite Hadded, Hsame.
    + eexists (_ :: added). rewrite Hadded, Hone, <- app_assoc. split; [reflexivity|].
      constructor; [eauto|done].
Qed.

End Cursor.

(** ** The initiation request *)

Section Service.

Variable cleanPathString : string -> string.
Variable newRequestError : string -> string -> option string.
Variable checkResponse : Response -> option string.

Local Abbreviation path := (ScanService.path cleanPathString).
Local Abbreviation Do := (ScanService.Do cleanPathString newRequestError checkResponse).
Local Abbreviation run := (ScanCursor.run newRequestError checkResponse).

(** The encoded parameters of the initiation request, spelled out. *)
Lemma service_params_encoded (s : ScanService.t) :
  Values_Encode (ScanService.params s) =
  pretty_part (ScanService.pretty s) ++ "scroll="
    ++ QueryEscape (effective_ttl (ScanService.keepAlive s))
    ++ "&search_type=scan" ++ size_part (ScanService.size s).
Proof.
  destruct s as [indices types keepAlive query size pretty debug].
  unfold ScanService.params, effective_ttl, size_part; simpl.
  destruct (decide (keepAlive = "")) as [->|Hset];
    [|rewrite (bool_decide_eq_true_2 (keepAlive ≠ "")),
              (bool_decide_eq_false_2 (keepAlive = "")) by done];
    destruct pretty, size as [n|];
    try (destruct (decide (0 < n));
         [rewrite !(bool_decide_eq_true_2 (0 < n)) by done
         |rewrite !(bool_decide_eq_false_2 (0 < n)) by done]);
    vm_compute; reflexivity.
Qed.

Lemma service_params_nonempty (s : ScanService.t) :
  bool_decide (0 < base.size (ScanService.params s))%nat = true.
Proof.
  destruct s as [indices types keepAlive query size pretty debug].
  unfold ScanService.params; simpl.
  destruct pretty, (bool_decide (keepAlive ≠ "")), size as [n|];
    try destruct (bool_decide (0 < n)); vm_compute; reflexivity.
Qed.

(** A successful [Do] sent exactly one request and seeded the cursor with
    the configuration of the service. *)
Lemma Do_ok (s : ScanService.t) (w w1 : World) (c : ScanCursor.t) :
  Do s w = (Ok c, w1) ->
  (exists results,
     c = ScanCursor.NewScanCursor (ScanService.keepAlive s) (ScanService.pretty s)
                                  (ScanService.debug s) (Some results)) /\
  calls w1 =
    (calls w ++ [HttpDo (mkRequest "POST"
                           (path s ++ "?" ++ Values_Encode (ScanService.params s))
                           (BodyJson (ScanService.body s)))])%list.
Proof.
  unfold ScanService.Do. rewrite service_params_nonempty.
  unfold Client.NewRequest, Client.Do, Client.exchange.
  repeat case_match; intros; simplify_eq/=; eauto.
Qed.

(** C6. After a successful initiation, the initiation request and every
    request the returned cursor sends, in any run of [Next] calls from any
    state of the server, carry the same [scroll] parameter:
    the default ["5m"] when the configuration has no TTL, the TTL of the
    configuration otherwise. *)
Theorem same_ttl_in_every_request (s : ScanService.t) (w w1 : World) (c : ScanCursor.t) :
  Do s w = (Ok c, w1) ->
  let ttl :=
    if bool_decide (ScanService.keepAlive s = "") then "5m" else ScanService.keepAlive s in
  (exists req0,
     calls w1 = (calls w ++ [HttpDo req0])%list /\
     URL req0 = path s ++ "?" ++ pretty_part (ScanService.pretty s)
                  ++ "scroll=" ++ QueryEscape ttl
                  ++ "&search_type=scan" ++ size_part (ScanService.size s)) /\
  (forall (n : nat) (w' : World) (req : Request),
     HttpDo req ∈ new_calls w' (run n c w').2 ->
     URL req = "/_search/scroll?" ++ pretty_part (ScanService.pretty s)
                 ++ "scroll=" ++ QueryEscape ttl).
Proof.
  intros [(results & ->) Hcalls]%Do_ok ttl. split.
  - eexists. split; [exact Hcalls|]. simpl. by rewrite service_params_encoded.
  - intros n w' req. unfold new_calls.
    destruct (run_calls newRequestError checkResponse n
                (ScanCursor.NewScanCursor (ScanService.keepAlive s) (ScanService.pretty s)
                   (ScanService.debug s) (Some results)) w') as (added & -> & Hall).
    rewrite drop_app_length. intros Hin.
    rewrite Forall_forall in Hall. destruct (Hall _ Hin) as (req' & Heq & _ & Hurl).
    injection Heq as <-. rewrite Hurl. unfold continuation_url.
    by rewrite cursor_params_encoded.
Qed.

Lemma string_app_assoc (s1 s2 s3 : string) : (s1 ++ s2) ++ s3 = s1 ++ s2 ++ s3.
Proof.
  induction s1 as [|a s1 IH]; [reflexivity|].
  change (String a ((s1 ++ s2) ++ s3) = String a (s1 ++ s2 ++ s3)). by rewrite IH.
Qed.

(** The shape of the path in full: the leading slash is always there, the
    slash before the types only with types. *)
Lemma path_shape (s : ScanService.t) :
  path s =
  "/" ++ match ScanService.indices s with
         | [] => ""
         | _ => Join (cleanPathString <$> ScanService.indices s) ","
         end
      ++ match ScanService.types s with
         | [] => ""
         | _ => "/" ++ Join (cleanPathString <$> ScanService.types s) ","
         end
      ++ "/_search".
Proof.
  unfold ScanService.path.
  destruct (ScanService.indices s) as [|i rest], (ScanService.types s) as [|t rest'];
    rewrite ?fmap_cons, ?fmap_nil;
    rewrite ?(bool_decide_eq_true_2 (0 < length (_ :: _))%nat) by (simpl; lia);
    rewrite ?(bool_decide_eq_false_2 (0 < length [])%nat) by (simpl; lia);
    rewrite ?string_app_assoc; reflexivity.
Qed.

(** C4. What the code builds when names are missing: with neither
    indices nor types the path is ["//_search"], and with a type but no
    index it starts with two slashes as well; the leading slash is not
    dropped with the empty index segment. *)
Theorem path_without_index (matchAll : Value) :
  path (ScanService.NewScanService matchAll) = "//_search" /\
  (forall typ : string,
     path (ScanService.Type_ typ (ScanService.NewScanService matchAll))
     = "//" ++ cleanPathString typ ++ "/_search") /\
  (forall index : string,
     path (ScanService.Index index (ScanService.NewScanService matchAll))
     = "/" ++ cleanPathString index ++ "/_search").
Proof. split_and!; reflexivity. Qed.

Lemma add_all_app (l1 l2 : list Addition) (s : ScanService.t) :
  add_all (l1 ++ l2) s = add_all l2 (add_all l1 s).
Proof. apply foldl_app. Qed.

Lemma add_all_indices (indices : list string) (s : ScanService.t) :
  add_all (AddIndex <$> indices) s = ScanService.Indices indices s.
Proof.
  revert s. induction indices as [|x indices IH]; intros s.
  - destruct s. unfold ScanService.Indices, add_all; simpl. by rewrite app_nil_r.
  - change (add_all (AddIndex <$> x :: indices) s)
      with (add_all (AddIndex <$> indices) (ScanService.Index x s)).
    rewrite IH. unfold ScanService.Indices, ScanService.Index; simpl.
    by rewrite <- app_assoc.
Qed.

Lemma add_all_types (types : list string) (s : ScanService.t) :
  add_all (AddType <$> types) s = ScanService.Types types s.
Proof.
  revert s. induction types as [|x types IH]; intros s.
  - destruct s. unfold ScanService.Types, add_all; simpl. by rewrite app_nil_r.
  - change (add_all (AddType <$> x :: types) s)
      with (add_all (AddType <$> types) (ScanService.Type_ x s)).
    rewrite IH. unfold ScanService.Types, ScanService.Type_; simpl.
    by rewrite <- app_assoc.
Qed.

Lemma add_one_by_one (a : Addition) (s : ScanService.t) :
  add_all (one_by_one a) s = add s a.
Proof.
  destruct a as [index|indices|typ|types]; simpl;
    auto using add_all_indices, add_all_types.
Qed.

Lemma add_all_names (l : list Addition) (s : ScanService.t) :
  ScanService.indices (add_all l s) = (ScanService.indices s ++ l ≫= index_names)%list /\
  ScanService.types (add_all l s) = (ScanService.types s ++ l ≫= type_names)%list.
Proof.
  revert s. induction l as [|a l IH]; intros s; simpl.
  - by rewrite !app_nil_r.
  - destruct (IH (add s a)) as [Hi Ht]. unfold add_all in *. rewrite Hi, Ht.
    destruct a; simpl; rewrite <- ?app_assoc, ?app_nil_r; done.
Qed.

(** C8. Names added by any sequence of [Index], [Indices], [Type] and
    [Types] calls pile up in call order, and adding the same names one call
    at a time gives the same configuration, hence the same comma-joined,
    escaped path. *)
Theorem names_accumulate_in_order (l : list Addition) (s : ScanService.t) :
  ScanService.indices (add_all l s) = (ScanService.indices s ++ l ≫= index_names)%list /\
  ScanService.types (add_all l s) = (ScanService.types s ++ l ≫= type_names)%list /\
  add_all (l ≫= one_by_one) s = add_all l s /\
  path (add_all (l ≫= one_by_one) s) = path (add_all l s).
Proof.
  destruct (add_all_names l s) as [Hi Ht].
  assert (add_all (l ≫= one_by_one) s = add_all l s) as Hsame.
  { clear. revert s. induction l as [|a l IH]; intros s; [reflexivity|].
    change ((a :: l) ≫= one_by_one) with (one_by_one a ++ l ≫= one_by_one)%list.
    rewrite add_all_app, add_one_by_one. apply IH. }
  by rewrite Hsame.
Qed.

End Service.

(** ** The multi-termvector request *)

Section MultiTermvector.

Variable Expand : string -> gmap string string -> string * option string.
Variable checkResponse : Response -> option string.

Local Abbreviation Do := (MultiTermvectorService.Do Expand checkResponse).

Lemma lookup_set_if_ne (cond : bool) (key k : string) (v : Value)
    (source : gmap string Value) :
  key ≠ k -> MultiTermvectorItem.set_if cond key v source !! k = source !! k.
Proof. intros Hne. destruct cond; simpl; [by apply lookup_insert_ne | done]. Qed.

Lemma lookup_set_some_ne {A} (p : option A) (key k : string) (f : A -> Value)
    (source : gmap string Value) :
  key ≠ k -> MultiTermvectorItem.set_some p key f source !! k = source !! k.
Proof. intros Hne. destruct p; simpl; [by apply lookup_insert_ne | done]. Qed.

Ltac skip_keys :=
  repeat first
    [ rewrite lookup_set_if_ne by done
    | rewrite lookup_set_some_ne by done
    | rewrite lookup_insert_ne by done ].

(** C10. An item with a parent id sends it under the key ["parant"]; the
    key ["parent"] is never in the source. *)
Theorem parent_sent_as_parant (s : MultiTermvectorItem.t) :
  MultiTermvectorItem.parent s ≠ "" ->
  MultiTermvectorItem.Source s !! "parant" = Some (VString (MultiTermvectorItem.parent s)) /\
  MultiTermvectorItem.Source s !! "parent" = None.
Proof.
  intros Hparent. unfold MultiTermvectorItem.Source. cbv zeta.
  split; destruct (MultiTermvectorItem.perFieldAnalyzer s) as [m|];
    try case_bool_decide; skip_keys.
  all: try (unfold MultiTermvectorItem.set_if at 1;
            rewrite bool_decide_eq_true_2 by done; apply lookup_insert_eq).
  all: apply lookup_empty.
Qed.

(** C9. A request without index or without type is refused by [Do] with
    an error that lists what is missing, and the world is left as it was:
    nothing is sent.  With both set, validation passes. *)
Theorem Do_validates_first (s : MultiTermvectorService.t) (w : World) :
  (MultiTermvectorService.index s = "" -> MultiTermvectorService.typ s = "" ->
   Do s w = (Err (ErrValidate "missing required fields: [Index Type]"), w)) /\
  (MultiTermvectorService.index s = "" -> MultiTermvectorService.typ s ≠ "" ->
   Do s w = (Err (ErrValidate "missing required fields: [Index]"), w)) /\
  (MultiTermvectorService.index s ≠ "" -> MultiTermvectorService.typ s = "" ->
   Do s w = (Err (ErrValidate "missing required fields: [Type]"), w)) /\
  (MultiTermvectorService.index s ≠ "" -> MultiTermvectorService.typ s ≠ "" ->
   MultiTermvectorService.Validate s = None).
Proof.
  unfold MultiTermvectorService.Do, MultiTermvectorService.Validate.
  split_and!; intros Hi Ht;
    rewrite ?(bool_decide_eq_true_2 _ Hi), ?(bool_decide_eq_true_2 _ Ht),
            ?(bool_decide_eq_false_2 _ Hi), ?(bool_decide_eq_false_2 _ Ht);
    reflexivity.
Qed.

End MultiTermvector.

(** ** The statements at work on concrete runs *)

(** C1 as first stated fails: the third call hands back the empty page
    itself, and end-of-stream comes with the fourth call. *)
Lemma third_call_gives_empty_page :
  documents ex_A ≠ [] /\ documents ex_B ≠ [] /\ documents ex_C = [] /\
  (ScanCursor.run accept_any status_2xx 4 ex_cursor ex_world).1.1
    = [Page ex_A; Page ex_B; Page ex_C; Failed EOS] /\
  (ScanCursor.run accept_any status_2xx 4 ex_cursor ex_world).1.1
    ≠ [Page ex_A; Page ex_B; Failed EOS; Failed EOS].
Proof.
  split_and!; [done | done | done | by vm_compute |].
  vm_compute. intros H. discriminate H.
Qed.

Lemma pages_then_EOS_witness :
  (ScanCursor.run accept_any status_2xx (4 + 2) ex_cursor ex_world).1.1
    = [Page ex_A; Page ex_B; Page ex_C; Failed EOS; Failed EOS; Failed EOS] /\
  length (new_calls ex_world
            (ScanCursor.run accept_any status_2xx (4 + 2) ex_cursor ex_world).2) = 3%nat.
Proof.
  apply (pages_then_EOS accept_any status_2xx "" false false
           ex_seed ex_A ex_B ex_C
           (mkResponse 200 (Object (Json.of_result ex_A)))
           (mkResponse 200 (Object (Json.of_result ex_B)))
           (mkResponse 200 (Object (Json.of_result ex_C)))
           [] ex_world).
  - discriminate.
  - reflexivity.
  - reflexivity.
  - repeat split.
  - repeat split; discriminate.
  - repeat split.
  - repeat split; discriminate.
  - repeat split.
  - reflexivity.
Defined.

(** C2 as first stated fails: a spent cursor without token answers
    end-of-stream, not the missing-token error. *)
Lemma spent_cursor_without_token_gives_EOS :
  (exists results, ScanCursor.Results ex_spent = Some results /\
                   SearchResult.ScrollId results = "") /\
  ScanCursor.Next accept_any status_2xx ex_spent ex_world = (Failed EOS, ex_spent, ex_world) /\
  (ScanCursor.Next accept_any status_2xx ex_spent ex_world).1.1 ≠ Failed ErrNoScrollId.
Proof.
  split_and!; [by eexists | reflexivity | discriminate].
Qed.

Lemma Next_without_token_witness :
  ScanCursor.Next accept_any status_2xx ex_tokenless ex_world
    = (Failed ErrNoScrollId, ex_tokenless, ex_world).
Proof.
  apply (Next_without_token accept_any status_2xx ex_tokenless ex_world
           (SearchResult.mk "" None)).
  - reflexivity.
  - reflexivity.
  - left. simpl. lia.
Defined.

Lemma exhausted_is_final_witness :
  ScanCursor.run accept_any status_2xx 3 ex_spent ex_world
    = ([Failed EOS; Failed EOS; Failed EOS], ex_spent, ex_world).
Proof.
  apply (exhausted_is_final accept_any status_2xx ex_spent ex_world
           (SearchResult.mk "" None) eq_refl).
  - simpl. lia.
  - left. reflexivity.
Defined.

Lemma continuation_body_is_token_witness :
  HttpDo (mkRequest "POST" "/_search/scroll?scroll=5m" (BodyString "token0"))
    ∈ new_calls ex_world (ScanCursor.Next accept_any status_2xx ex_cursor ex_world).2 /\
  Body (mkRequest "POST" "/_search/scroll?scroll=5m" (BodyString "token0"))
    = BodyString (SearchResult.ScrollId ex_seed).
Proof.
  assert (HttpDo (mkRequest "POST" "/_search/scroll?scroll=5m" (BodyString "token0"))
            ∈ new_calls ex_world (ScanCursor.Next accept_any status_2xx ex_cursor ex_world).2)
    as Hsent by (vm_compute; constructor).
  split; [exact Hsent|].
  exact (continuation_body_is_token accept_any status_2xx ex_cursor ex_world ex_seed
           _ eq_refl Hsent).
Defined.

Lemma TotalHits_is_stored_total_witness :
  ScanCursor.TotalHits ex_cursor = Some 3 /\
  ScanCursor.TotalHits ex_tokenless = Some 0.
Proof.
  split.
  - apply (proj1 (proj2 (TotalHits_is_stored_total accept_any status_2xx
                           ex_cursor ex_seed eq_refl)) (SearchHits.mk 3 [])).
    reflexivity.
  - apply (proj1 (TotalHits_is_stored_total accept_any status_2xx
                    ex_tokenless (SearchResult.mk "" None) eq_refl)).
    reflexivity.
Defined.

Lemma same_ttl_in_every_request_witness :
  ScanService.Do plain_path accept_any status_2xx ex_service ex_server
    = (Ok ex_cursor, ex_started) /\
  (exists req0,
     calls ex_started = (calls ex_server ++ [HttpDo req0])%list /\
     URL req0 = "/logs/_search?scroll=5m&search_type=scan") /\
  (forall (n : nat) (w' : World) (req : Request),
     HttpDo req ∈ new_calls w' (ScanCursor.run accept_any status_2xx n ex_cursor w').2 ->
     URL req = "/_search/scroll?scroll=5m").
Proof.
  assert (ScanService.Do plain_path accept_any status_2xx ex_service ex_server
            = (Ok ex_cursor, ex_started)) as Hdo by (vm_compute; reflexivity).
  split; [exact Hdo|].
  exact (same_ttl_in_every_request plain_path accept_any status_2xx
           ex_service ex_server ex_started ex_cursor Hdo).
Defined.

Lemma parent_sent_as_parant_witness :
  MultiTermvectorItem.Source ex_item !! "parant" = Some (VString "p1") /\
  MultiTermvectorItem.Source ex_item !! "parent" = None.
Proof.
  apply (parent_sent_as_parant ex_item). discriminate.
Defined.

Lemma Do_validates_first_witness :
  MultiTermvectorService.Do no_expansion status_2xx
    (MultiTermvectorService.Index "logs" MultiTermvectorService.NewMultiTermvectorService)
    ex_world
  = (Err (ErrValidate "missing required fields: [Type]"), ex_world).
Proof.
  apply (proj1 (proj2 (proj2 (Do_validates_first no_expansion status_2xx
           (MultiTermvectorService.Index "logs"
              MultiTermvectorService.NewMultiTermvectorService) ex_world)))).
  - discriminate.
  - reflexivity.
Defined.

(** ** More on the cursor: outcomes, failures and what a step changes *)

Section CursorSteps.

Variable newRequestError : string -> string -> option string.
Variable checkResponse : Response -> option string.

Local Abbreviation Next := (ScanCursor.Next newRequestError checkResponse).
Local Abbreviation run := (ScanCursor.run newRequestError checkResponse).

(** X1. The two sentinel errors come from the two guards and from nothing
    else: end-of-stream exactly when the step count is above 0 and the
    stored page is terminal, the missing-token error exactly when that is
    not so and the token is empty.  No request, reply or body can make
    [Next] answer either of them. *)
Theorem Next_sentinels (c : ScanCursor.t) (w : World) (results : SearchResult.t) :
  ScanCursor.Results c = Some results ->
  ((Next c w).1.1 = Failed EOS <->
   0 < ScanCursor.currentPage c /\ ScanCursor.terminal results = true) /\
  ((Next c w).1.1 = Failed ErrNoScrollId <->
   ~ (0 < ScanCursor.currentPage c /\ ScanCursor.terminal results = true) /\
   SearchResult.ScrollId results = "").
Proof.
  intros Hres.
  assert (bool_decide (0 < ScanCursor.currentPage c) && ScanCursor.terminal results = true
          <-> 0 < ScanCursor.currentPage c /\ ScanCursor.terminal results = true) as Hb1
    by (rewrite andb_true_iff, bool_decide_eq_true; done).
  rewrite <- Hb1, <- (bool_decide_eq_true (SearchResult.ScrollId results = "")).
  unfold ScanCursor.Next, Client.NewRequest, Client.Do, Client.exchange.
  rewrite Hres.
  destruct (bool_decide (0 < ScanCursor.currentPage c) && ScanCursor.terminal results).
  { simpl. split; split; try done. by intros [[] _]. }
  destruct (bool_decide (SearchResult.ScrollId results = "")).
  { simpl. split; split; try done. }
  repeat case_match; simplify_eq/=; (split; split; try done; by intros [_ ?]).
Qed.

Lemma live_guard (c : ScanCursor.t) (results : SearchResult.t) :
  ScanCursor.currentPage c <= 0 \/ ScanCursor.terminal results = false ->
  bool_decide (0 < ScanCursor.currentPage c) && ScanCursor.terminal results = false.
Proof.
  intros [Hpage| ->]; [|apply andb_false_r].
  rewrite bool_decide_eq_false_2 by lia. reflexivity.
Qed.

(** The request a live cursor with a token sends. *)
Lemma Next_enters (c : ScanCursor.t) (w : World) (results : SearchResult.t) :
  ScanCursor.Results c = Some results ->
  ScanCursor.currentPage c <= 0 \/ ScanCursor.terminal results = false ->
  SearchResult.ScrollId results ≠ "" ->
  newRequestError "POST" (continuation_url c) = None ->
  Next c w =
  let req := mkRequest "POST" (continuation_url c)
                       (BodyString (SearchResult.ScrollId results)) in
  let w := if ScanCursor.debug c then Client.emit (LogRequest req) w else w in
  match Client.Do req w with
  | (Err e, w) => (Failed e, c, w)
  | (Ok res, w) =>
      match checkResponse res with
      | Some msg => (Failed (ErrResponse msg), c, w)
      | None =>
          let w := if ScanCursor.debug c then Client.emit (LogResponse res) w else w in
          let '(results, ok) := Json.Decode (ResponseBody res) results in
          let c := ScanCursor.with_Results results c in
          if ok then (Page results, ScanCursor.next_page c, w)
          else (Failed ErrDecode, c, w)
      end
  end.
Proof.
  intros Hres Hlive Htoken Hurl. unfold ScanCursor.Next.
  rewrite Hres, (live_guard c results Hlive), bool_decide_eq_false_2 by done.
  unfold Client.NewRequest.
  change ("/_search/scroll" ++ "?" ++ Values_Encode (ScanCursor.params c))
    with (continuation_url c).
  rewrite Hurl. reflexivity.
Qed.

Lemma calls_emit_if (b : bool) (d : Dump) (w : World) :
  calls (if b then Client.emit d w else w) = calls w /\
  script (if b then Client.emit d w else w) = script w.
Proof. by destruct b. Qed.

(** X2. A call of [Next] that hands back no page leaves the step count
    as it was, and unless it failed in decoding it leaves the whole cursor
    as it was: the stored page and token survive every other failure. *)
Theorem Next_failure_keeps_cursor (c c' : ScanCursor.t) (w w' : World) (o : Outcome) :
  Next c w = (o, c', w') ->
  (forall p, o ≠ Page p) ->
  ScanCursor.currentPage c' = ScanCursor.currentPage c /\
  (o ≠ Failed ErrDecode -> c' = c).
Proof.
  unfold ScanCursor.Next.
  repeat case_match; intros Hnext Hpage; simplify_eq/=; try done.
  all: by destruct (Hpage _ eq_refl).
Qed.

(** X3. A call of [Next] that hands back a page has sent exactly one
    request, carrying the token stored before the call; the cursor now
    stores that page, its step count is one higher, and its TTL and flags
    are what they were. *)
Theorem Next_page_postcondition (c c' : ScanCursor.t) (w w' : World) (p : SearchResult.t) :
  Next c w = (Page p, c', w') ->
  c' = ScanCursor.mk (Some p) (ScanCursor.keepAlive c) (ScanCursor.pretty c)
                     (ScanCursor.debug c) (wrap_int (ScanCursor.currentPage c + 1)) /\
  exists results,
    ScanCursor.Results c = Some results /\
    SearchResult.ScrollId results ≠ "" /\
    calls w' = (calls w ++ [HttpDo (mkRequest "POST" (continuation_url c)
                              (BodyString (SearchResult.ScrollId results)))])%list.
Proof.
  unfold ScanCursor.Next, Client.NewRequest, Client.Do, Client.exchange, continuation_url.
  destruct (ScanCursor.Results c) as [results|] eqn:Hres; [|done].
  destruct (bool_decide (0 < _) && _); [done|].
  case_bool_decide as Htoken; [done|].
  repeat case_match; intros; simplify_eq/=;
    (split; [unfold ScanCursor.next_page, ScanCursor.with_Results; simpl; congruence|]);
    eauto.
Qed.

(** X4. When the exchange itself fails, [Next] hands the transport error
    on; the request has gone out, and the cursor is as before, so the next
    call sends the same token again. *)
Theorem Next_transport_failure (c : ScanCursor.t) (w : World) (results : SearchResult.t)
    (msg : string) (rest : list RoundTrip) :
  ScanCursor.Results c = Some results ->
  ScanCursor.currentPage c <= 0 \/ ScanCursor.terminal results = false ->
  SearchResult.ScrollId results ≠ "" ->
  newRequestError "POST" (continuation_url c) = None ->
  script w = NetError msg :: rest ->
  (Next c w).1 = (Failed (ErrTransport msg), c) /\
  script (Next c w).2 = rest /\
  calls (Next c w).2 =
    (calls w ++ [HttpDo (mkRequest "POST" (continuation_url c)
                   (BodyString (SearchResult.ScrollId results)))])%list.
Proof.
  intros Hres Hlive Htoken Hurl Hscript.
  rewrite (Next_enters c w results) by done. cbv zeta.
  unfold Client.Do, Client.exchange.
  destruct (calls_emit_if (ScanCursor.debug c)
              (LogRequest (mkRequest "POST" (continuation_url c)
                             (BodyString (SearchResult.ScrollId results)))) w)
    as [Hcalls Hscr].
  rewrite Hscr, Hscript, Hcalls. done.
Qed.

(** X5. A reply that [checkResponse] rejects is not decoded: [Next] hands
    the error on and the cursor is as before. *)
Theorem Next_rejected_reply (c : ScanCursor.t) (w : World) (results : SearchResult.t)
    (res : Response) (msg : string) (rest : list RoundTrip) :
  ScanCursor.Results c = Some results ->
  ScanCursor.currentPage c <= 0 \/ ScanCursor.terminal results = false ->
  SearchResult.ScrollId results ≠ "" ->
  newRequestError "POST" (continuation_url c) = None ->
  script w = Reply res :: rest ->
  checkResponse res = Some msg ->
  (Next c w).1 = (Failed (ErrResponse msg), c) /\
  script (Next c w).2 = rest.
Proof.
  intros Hres Hlive Htoken Hurl Hscript Hcheck.
  rewrite (Next_enters c w results) by done. cbv zeta.
  unfold Client.Do, Client.exchange.
  destruct (calls_emit_if (ScanCursor.debug c)
              (LogRequest (mkRequest "POST" (continuation_url c)
                             (BodyString (SearchResult.ScrollId results)))) w)
    as [Hcalls Hscr].
  rewrite Hscr, Hscript, Hcheck. done.
Qed.


(** X7. A URL that [NewRequest] refuses stops [Next] before anything is
    sent or printed: cursor and world are as before. *)
Theorem Next_refused_url (c : ScanCursor.t) (w : World) (results : SearchResult.t)
    (msg : string) :
  ScanCursor.Results c = Some results ->
  ScanCursor.currentPage c <= 0 \/ ScanCursor.terminal results = false ->
  SearchResult.ScrollId results ≠ "" ->
  newRequestError "POST" (continuation_url c) = Some msg ->
  Next c w = (Failed (ErrNewRequest msg), c, w).
Proof.
  intros Hres Hlive Htoken Hurl. unfold ScanCursor.Next.
  rewrite Hres, (live_guard c results Hlive), bool_decide_eq_false_2 by done.
  unfold Client.NewRequest.
  change ("/_search/scroll" ++ "?" ++ Values_Encode (ScanCursor.params c))
    with (continuation_url c).
  by rewrite Hurl.
Qed.

(** X8. Calls of [Next] only ever add to the recorded requests, one at
    most per call: [n] calls give [n] outcomes and send at most [n]
    requests. *)
Theorem run_sends_at_most_one_each (n : nat) (c : ScanCursor.t) (w : World) :
  length (run n c w).1.1 = n /\
  exists added, calls (run n c w).2 = (calls w ++ added)%list /\ (length added <= n)%nat.
Proof.
  revert c w. induction n as [|n IH]; intros c w.
  - split; [reflexivity|]. exists []. simpl. by rewrite app_nil_r.
  - rewrite run_S. pose proof (Next_calls newRequestError checkResponse c w) as Hcalls.
    destruct (Next c w) as [[o c1] w1]. simpl in Hcalls.
    destruct (IH c1 w1) as (Hlen & added & Hadded & Hle).
    destruct (run n c1 w1) as [[os c2] w2]. simpl in *.
    split; [by rewrite Hlen|].
    destruct Hcalls as [Hsame | (results & _ & Hone)].
    + exists added. rewrite Hadded, Hsame. split; [done|lia].
    + eexists (_ :: added). rewrite Hadded, Hone, <- app_assoc.
      split; [reflexivity|simpl; lia].
Qed.

(** X9. The reply is decoded into the result the cursor already holds: a
    reply without a [_scroll_id] key (or with [null] there) leaves the
    token in place, so the page handed back carries the old token. *)
Theorem Next_keeps_token (c : ScanCursor.t) (w : World) (results : SearchResult.t)
    (res : Response) (o : JsonObject) (hits : SearchHits.t) (rest : list RoundTrip) :
  ScanCursor.Results c = Some results ->
  ScanCursor.currentPage c <= 0 \/ ScanCursor.terminal results = false ->
  SearchResult.ScrollId results ≠ "" ->
  newRequestError "POST" (continuation_url c) = None ->
  script w = Reply res :: rest ->
  checkResponse res = None ->
  ResponseBody res = Object o ->
  json_scroll_id o = Absent \/ json_scroll_id o = Null ->
  json_hits_object o = Present (Json.of_hits hits) ->
  Json.fits_int64 (SearchHits.TotalHits hits) = true ->
  (Next c w).1.1 = Page (SearchResult.mk (SearchResult.ScrollId results) (Some hits)).
Proof.
  intros Hres Hlive Htoken Hurl Hscript Hcheck Hbody Hsid Hhits Hfits.
  rewrite (Next_enters c w results) by done. cbv zeta.
  unfold Client.Do, Client.exchange.
  destruct (calls_emit_if (ScanCursor.debug c)
              (LogRequest (mkRequest "POST" (continuation_url c)
                             (BodyString (SearchResult.ScrollId results)))) w)
    as [Hcalls Hscr].
  rewrite Hscr, Hscript, Hcheck, Hbody. unfold Json.Decode. rewrite Hhits.
  destruct hits as [n docs]. unfold Json.decode_hits_ptr, Json.decode_hits; simpl in *.
  rewrite Hfits. by destruct Hsid as [-> | ->].
Qed.

(** X10. A reply with a key of the wrong type fails in decoding, but
    only after the other keys have been stored: the call fails and the
    step count stays, yet the cursor now holds the token and the documents
    of that reply. *)
Theorem Next_type_error_still_stores (c : ScanCursor.t) (w : World)
    (results : SearchResult.t) (res : Response) (o : JsonObject)
    (token : string) (docs : list SearchHit) (rest : list RoundTrip) :
  ScanCursor.Results c = Some results ->
  ScanCursor.currentPage c <= 0 \/ ScanCursor.terminal results = false ->
  SearchResult.ScrollId results ≠ "" ->
  newRequestError "POST" (continuation_url c) = None ->
  script w = Reply res :: rest ->
  checkResponse res = None ->
  ResponseBody res = Object o ->
  json_scroll_id o = Present token ->
  json_hits_object o = Present (mkHitsJson Mistyped (Present docs)) ->
  (Next c w).1.1 = Failed ErrDecode /\
  ScanCursor.currentPage (Next c w).1.2 = ScanCursor.currentPage c /\
  ScanCursor.Results (Next c w).1.2
    = Some (SearchResult.mk token (Some (SearchHits.mk (total results) docs))).
Proof.
  intros Hres Hlive Htoken Hurl Hscript Hcheck Hbody Hsid Hhits.
  rewrite (Next_enters c w results) by done. cbv zeta.
  unfold Client.Do, Client.exchange.
  destruct (calls_emit_if (ScanCursor.debug c)
              (LogRequest (mkRequest "POST" (continuation_url c)
                             (BodyString (SearchResult.ScrollId results)))) w)
    as [Hcalls Hscr].
  rewrite Hscr, Hscript, Hcheck, Hbody. unfold Json.Decode. rewrite Hsid, Hhits.
  unfold total. simpl. by destruct (SearchResult.Hits results).
Qed.

(** X11. At step count 0 the stored page is not looked at: a cursor fresh
    from initiation sends its first request whatever the initiation
    response held, also when it held no documents or no hit metadata. *)
Theorem fresh_cursor_always_asks (c : ScanCursor.t) (w : World) (results : SearchResult.t) :
  ScanCursor.Results c = Some results ->
  ScanCursor.currentPage c <= 0 ->
  SearchResult.ScrollId results ≠ "" ->
  newRequestError "POST" (continuation_url c) = None ->
  calls (Next c w).2 =
    (calls w ++ [HttpDo (mkRequest "POST" (continuation_url c)
                   (BodyString (SearchResult.ScrollId results)))])%list.
Proof.
  intros Hres Hpage Htoken Hurl.
  rewrite (Next_enters c w results) by auto. cbv zeta.
  unfold Client.Do, Client.exchange.
  destruct (calls_emit_if (ScanCursor.debug c)
              (LogRequest (mkRequest "POST" (continuation_url c)
                             (BodyString (SearchResult.ScrollId results)))) w)
    as [Hcalls Hscr].
  rewrite Hcalls. repeat case_match; simplify_eq/=; by rewrite ?(proj1 (calls_emit_if _ _ _)).
Qed.

(** X12. Without the debug flag the cursor prints nothing, however many
    calls are made and whatever the server answers. *)
Theorem quiet_without_debug (n : nat) (c : ScanCursor.t) (w : World) :
  ScanCursor.debug c = false ->
  output (run n c w).2 = output w.
Proof.
  revert c w. induction n as [|n IH]; intros c w Hdebug; [reflexivity|].
  rewrite run_S.
  pose proof (Next_config newRequestError checkResponse c w) as (_ & _ & Hd).
  assert (output (Next c w).2 = output w) as Hout.
  { unfold ScanCursor.Next, Client.NewRequest, Client.Do, Client.exchange.
    rewrite Hdebug. repeat case_match; simplify_eq/=; done. }
  destruct (Next c w) as [[o c1] w1]. simpl in *.
  specialize (IH c1 w1 ltac:(congruence)).
  destruct (run n c1 w1) as [[os c2] w2]. simpl in *. congruence.
Qed.

Lemma Next_EOS_inv (c c' : ScanCursor.t) (w w' : World) :
  Next c w = (Failed EOS, c', w') ->
  c' = c /\ w' = w /\
  exists results, ScanCursor.Results c = Some results /\
    0 < ScanCursor.currentPage c /\ ScanCursor.terminal results = true.
Proof.
  unfold ScanCursor.Next, Client.NewRequest, Client.Do, Client.exchange.
  destruct (ScanCursor.Results c) as [results|] eqn:Hres; [|done].
  destruct (bool_decide (0 < ScanCursor.currentPage c)) eqn:Hpage;
    destruct (ScanCursor.terminal results) eqn:Hterm; simpl.
  1: { intros [= <- <-]. apply bool_decide_eq_true in Hpage. eauto 10. }
  all: repeat case_match; intros; simplify_eq/=.
Qed.

(** X28. End-of-stream is final in every run: once a call of [Next] has
    answered end-of-stream, every later call of the run answers it too. *)
Theorem EOS_is_absorbing (n : nat) (c : ScanCursor.t) (w : World)
    (before after : list Outcome) :
  (run n c w).1.1 = (before ++ Failed EOS :: after)%list ->
  after = replicate (length after) (Failed EOS).
Proof.
  revert c w before. induction n as [|n IH]; intros c w before.
  - simpl. by destruct before.
  - rewrite run_S.
    destruct (Next c w) as [[o c1] w1] eqn:Hnext.
    destruct (run n c1 w1) as [[os c2] w2] eqn:Hrun. simpl.
    destruct before as [|o' before]; simpl; intros [= -> ->].
    + destruct (Next_EOS_inv _ _ _ _ Hnext) as (-> & -> & results & Hres & Hpage & Hterm).
      rewrite (run_exhausted newRequestError checkResponse n c w results) in Hrun by done.
      injection Hrun as <- _ _. by rewrite length_replicate.
    + apply (IH c1 w1 before). by rewrite Hrun.
Qed.

Lemma wrap_int_small (z : Z) :
  Json.int64_min <= z <= Json.int64_max -> wrap_int z = z.
Proof.
  unfold wrap_int, Json.int64_min, Json.int64_max. intros Hz.
  rewrite Z.mod_small; lia.
Qed.

Lemma Next_step_count (c : ScanCursor.t) (w : World) :
  ScanCursor.currentPage (Next c w).1.2 =
  match (Next c w).1.1 with
  | Page _ => wrap_int (ScanCursor.currentPage c + 1)
  | _ => ScanCursor.currentPage c
  end.
Proof.
  unfold ScanCursor.Next.
  repeat case_match; simplify_eq/=; done.
Qed.

(** X29. The step count counts the pages handed back: as long as it
    stays within [int], after any run it has grown by the number of pages
    among the outcomes, failed calls and end-of-stream adding nothing. *)
Theorem step_count_counts_pages (n : nat) (c : ScanCursor.t) (w : World) :
  Json.int64_min <= ScanCursor.currentPage c ->
  ScanCursor.currentPage c + Z.of_nat n <= Json.int64_max ->
  ScanCursor.currentPage (run n c w).1.2
    = ScanCursor.currentPage c + pages_returned (run n c w).1.1.
Proof.
  revert c w. induction n as [|n IH]; intros c w Hlo Hhi; [simpl; lia|].
  rewrite run_S. pose proof (Next_step_count c w) as Hstep.
  destruct (Next c w) as [[o c1] w1]. simpl in Hstep.
  assert (ScanCursor.currentPage c1 = ScanCursor.currentPage c + pages_returned [o]) as Hc1.
  { destruct o; simpl; rewrite Hstep; [|lia..]. rewrite wrap_int_small; lia. }
  assert (0 <= pages_returned [o] <= 1) by (destruct o; simpl; lia).
  specialize (IH c1 w1 ltac:(lia) ltac:(lia)).
  destruct (run n c1 w1) as [[os c2] w2]. simpl in *.
  rewrite IH, Hc1. destruct o; simpl; lia.
Qed.

End CursorSteps.

(** ** More on initiation: what [Do] sends and how it fails *)

Section ServiceSteps.

Variable cleanPathString : string -> string.
Variable newRequestError : string -> string -> option string.
Variable checkResponse : Response -> option string.

Local Abbreviation Do := (ScanService.Do cleanPathString newRequestError checkResponse).
Local Abbreviation Next := (ScanCursor.Next newRequestError checkResponse).

(** [Do] once the URL has been accepted. *)
Lemma Do_enters (s : ScanService.t) (w : World) :
  newRequestError "POST" (initiation_url cleanPathString s) = None ->
  Do s w =
  let req := initiation_request cleanPathString s in
  let w := if ScanService.debug s then Client.emit (PrintRequest req) w else w in
  match Client.Do req w with
  | (Err e, w) => (Err e, w)
  | (Ok res, w) =>
      match checkResponse res with
      | Some msg => (Err (ErrResponse msg), w)
      | None =>
          let w := if ScanService.debug s then Client.emit (PrintResponse res) w else w in
          let '(searchResult, ok) :=
            Json.Decode (ResponseBody res) (SearchResult.mk "" None) in
          if ok
          then (Ok (ScanCursor.NewScanCursor (ScanService.keepAlive s) (ScanService.pretty s)
                      (ScanService.debug s) (Some searchResult)), w)
          else (Err ErrDecode, w)
      end
  end.
Proof.
  intros Hurl. unfold ScanService.Do.
  rewrite service_params_nonempty. unfold Client.NewRequest.
  fold (initiation_url cleanPathString s). rewrite Hurl. reflexivity.
Qed.

(** X13. A URL that [NewRequest] refuses stops [Do] before anything is
    sent or printed. *)
Theorem Do_refused_url (s : ScanService.t) (w : World) (msg : string) :
  newRequestError "POST" (initiation_url cleanPathString s) = Some msg ->
  Do s w = (Err (ErrNewRequest msg), w).
Proof.
  intros Hurl. unfold ScanService.Do.
  rewrite service_params_nonempty. unfold Client.NewRequest.
  fold (initiation_url cleanPathString s). by rewrite Hurl.
Qed.

Lemma Do_calls (s : ScanService.t) (w : World) :
  newRequestError "POST" (initiation_url cleanPathString s) = None ->
  calls (Do s w).2 = (calls w ++ [HttpDo (initiation_request cleanPathString s)])%list.
Proof.
  intros Hurl. rewrite (Do_enters s w Hurl). cbv zeta.
  unfold Client.Do, Client.exchange.
  rewrite (proj1 (calls_emit_if _ _ _)).
  repeat case_match; simplify_eq/=; by rewrite ?(proj1 (calls_emit_if _ _ _)).
Qed.

(** X14. Once the URL is accepted [Do] sends exactly one request, a POST
    whose body is the JSON object holding the query, whatever the server
    answers and whether or not [Do] succeeds; the script of the server is
    one answer shorter. *)
Theorem Do_sends_one_request (s : ScanService.t) (w : World) :
  newRequestError "POST" (initiation_url cleanPathString s) = None ->
  calls (Do s w).2 = (calls w ++ [HttpDo (initiation_request cleanPathString s)])%list /\
  script (Do s w).2 = tail (script w).
Proof.
  intros Hurl. split; [by apply Do_calls|].
  rewrite (Do_enters s w Hurl). cbv zeta.
  unfold Client.Do, Client.exchange.
  rewrite (proj2 (calls_emit_if _ _ _)).
  repeat case_match; simplify_eq/=; by rewrite ?(proj2 (calls_emit_if _ _ _)).
Qed.


(** X16. Initiation and first step together: when the server answers the
    initiation request with a page sent in full, [Do] hands back a cursor
    at step count 0 holding that page, and the first [Next] on it sends
    the token of that page; the two requests are all that has been sent. *)
Theorem Do_then_Next_sends_token (s : ScanService.t) (w : World) (seed : SearchResult.t)
    (res : Response) (rest : list RoundTrip) :
  let c := ScanCursor.NewScanCursor (ScanService.keepAlive s) (ScanService.pretty s)
             (ScanService.debug s) (Some seed) in
  newRequestError "POST" (initiation_url cleanPathString s) = None ->
  script w = Reply res :: rest ->
  delivers checkResponse res seed ->
  SearchResult.ScrollId seed ≠ "" ->
  newRequestError "POST" (continuation_url c) = None ->
  (Do s w).1 = Ok c /\
  calls (Next c (Do s w).2).2 =
    (calls w ++ [HttpDo (initiation_request cleanPathString s);
                 HttpDo (mkRequest "POST" (continuation_url c)
                           (BodyString (SearchResult.ScrollId seed)))])%list.
Proof.
  intros c Hurl Hscript (Hcheck & Hbody & Hfits) Htoken Hurl'.
  pose proof (Do_calls s w Hurl) as Hcalls.
  assert ((Do s w).1 = Ok c) as Hdo.
  { rewrite (Do_enters s w Hurl). cbv zeta.
    unfold Client.Do, Client.exchange.
    rewrite (proj2 (calls_emit_if _ _ _)), Hscript, Hcheck, Hbody,
      Decode_of_result by done. reflexivity. }
  split; [exact Hdo|].
  rewrite (Next_enters newRequestError checkResponse c (Do s w).2 seed eq_refl)
    by (done || (left; simpl; lia)).
  cbv zeta. unfold Client.Do, Client.exchange.
  rewrite (proj1 (calls_emit_if _ _ _)), Hcalls, <- app_assoc.
  repeat case_match; simplify_eq/=; by rewrite ?(proj1 (calls_emit_if _ _ _)).
Qed.

(** X17. What the initiation request asks for: always [search_type=scan];
    [pretty=true] only with the pretty flag; a [size] only when a size above
    zero was set, so that [Size(0)] and negative sizes are dropped without
    a word; and nothing but these and [scroll]. *)
Theorem initiation_params (s : ScanService.t) :
  ScanService.params s !! "search_type" = Some ["scan"] /\
  ScanService.params s !! "pretty"
    = (if ScanService.pretty s then Some ["true"] else None) /\
  ScanService.params s !! "size"
    = match ScanService.size s with
      | Some n => if bool_decide (0 < n) then Some [Sprint_int n] else None
      | None => None
      end /\
  (forall key, is_Some (ScanService.params s !! key) ->
     key ∈ ["search_type"; "pretty"; "scroll"; "size"]).
Proof.
  unfold ScanService.params, Values_Set.
  split_and!.
  - repeat case_match; by simplify_map_eq.
  - destruct (ScanService.pretty s); repeat case_match; by simplify_map_eq.
  - destruct (ScanService.size s) as [n|]; repeat case_match; by simplify_map_eq.
  - intros key Hkey.
    destruct (decide (key = "search_type")) as [->|?]; [set_solver|].
    destruct (decide (key = "pretty")) as [->|?]; [set_solver|].
    destruct (decide (key = "scroll")) as [->|?]; [set_solver|].
    destruct (decide (key = "size")) as [->|?]; [set_solver|].
    exfalso. revert Hkey.
    repeat case_match; simplify_map_eq; by intros [? ?].
Qed.

(** X30. With at least one index the path is the escaped index names
    joined by commas, then the escaped type names joined by commas if
    there are types, then [_search], each part after one slash; without
    types there is no slash for them. *)
Theorem path_with_index (s : ScanService.t) :
  ScanService.indices s ≠ [] ->
  ScanService.path cleanPathString s =
  "/" ++ Join (cleanPathString <$> ScanService.indices s) ","
      ++ (if bool_decide (ScanService.types s = []) then ""
          else "/" ++ Join (cleanPathString <$> ScanService.types s) ",")
      ++ "/_search".
Proof.
  intros Hi. rewrite path_shape.
  destruct (ScanService.indices s); [done|].
  by destruct (ScanService.types s).
Qed.

End ServiceSteps.

(** ** More on the multi-termvector request *)

Section MultiTermvectorSteps.

Variable Expand : string -> gmap string string -> string * option string.
Variable checkResponse : Response -> option string.

Local Abbreviation Do := (MultiTermvectorService.Do Expand checkResponse).
Local Abbreviation buildURL := (MultiTermvectorService.buildURL Expand).

Lemma lookup_set_if_eq (cond : bool) (key : string) (v : Value)
    (source : gmap string Value) :
  MultiTermvectorItem.set_if cond key v source !! key
  = if cond then Some v else source !! key.
Proof. destruct cond; simpl; [apply lookup_insert_eq | done]. Qed.

Lemma lookup_set_some_eq {A} (p : option A) (key : string) (f : A -> Value)
    (source : gmap string Value) :
  MultiTermvectorItem.set_some p key f source !! key
  = match p with Some a => Some (f a) | None => source !! key end.
Proof. destruct p; simpl; [apply lookup_insert_eq | done]. Qed.

Ltac past_keys :=
  repeat first
    [ rewrite lookup_set_if_ne by done
    | rewrite lookup_set_some_ne by done
    | rewrite lookup_insert_ne by done ].

Ltac at_key :=
  unfold MultiTermvectorItem.Source; cbv zeta;
  destruct (MultiTermvectorItem.perFieldAnalyzer _) as [?m|];
  try case_bool_decide;
  past_keys;
  rewrite ?lookup_set_if_eq, ?lookup_set_some_eq, ?lookup_insert_eq;
  repeat case_bool_decide; try done;
  try (repeat case_match; past_keys; rewrite ?lookup_empty; done).

(** X18. The string keys of an item: [_id] is always sent, even when
    empty; [_index], [_type], [preference] and [routing] are sent only
    when they are not empty. *)
Theorem item_source_strings (s : MultiTermvectorItem.t) :
  let sent (value : string) := if bool_decide (value = "") then None else Some (VString value) in
  MultiTermvectorItem.Source s !! "_id" = Some (VString (MultiTermvectorItem.id s)) /\
  MultiTermvectorItem.Source s !! "_index" = sent (MultiTermvectorItem.index s) /\
  MultiTermvectorItem.Source s !! "_type" = sent (MultiTermvectorItem.typ s) /\
  MultiTermvectorItem.Source s !! "preference" = sent (MultiTermvectorItem.preference s) /\
  MultiTermvectorItem.Source s !! "routing" = sent (MultiTermvectorItem.routing s).
Proof.
  intros sent. unfold sent. split_and!; at_key.
Qed.

(** X19. The flags of an item do not travel alike: [offsets] is sent as
    a JSON boolean, while [field_statistics], [payloads], [positions],
    [realtime] and [term_statistics] are sent as the strings ["true"] and
    ["false"]; a flag that was never set is not sent. *)
Theorem item_source_flags (s : MultiTermvectorItem.t) :
  let text (flag : option bool) := (fun b => VString (Sprint_bool b)) <$> flag in
  MultiTermvectorItem.Source s !! "offsets" = VBool <$> MultiTermvectorItem.offsets s /\
  MultiTermvectorItem.Source s !! "field_statistics"
    = text (MultiTermvectorItem.fieldStatistics s) /\
  MultiTermvectorItem.Source s !! "payloads" = text (MultiTermvectorItem.payloads s) /\
  MultiTermvectorItem.Source s !! "positions" = text (MultiTermvectorItem.positions s) /\
  MultiTermvectorItem.Source s !! "realtime" = text (MultiTermvectorItem.realtime s) /\
  MultiTermvectorItem.Source s !! "term_statistics"
    = text (MultiTermvectorItem.termStatistics s).
Proof.
  intros text. unfold text. split_and!; at_key.
Qed.

(** X20. The remaining keys of an item: [doc] is the document set, if
    any; [per_field_analyzer] is sent only for a map with entries, an empty
    map being dropped like a missing one; and once [Fields] has been
    called, with names or without, [fields] is sent with every name given
    so far, in call order. *)
Theorem item_source_values (s : MultiTermvectorItem.t) (names : list string) :
  MultiTermvectorItem.Source s !! "doc" = MultiTermvectorItem.doc s /\
  MultiTermvectorItem.Source s !! "per_field_analyzer"
    = match MultiTermvectorItem.perFieldAnalyzer s with
      | Some m => if bool_decide (m = ∅) then None else Some (VStringMap m)
      | None => None
      end /\
  MultiTermvectorItem.Source (MultiTermvectorItem.Fields names s) !! "fields"
    = Some (VStrings (default [] (MultiTermvectorItem.fields s) ++ names)%list).
Proof.
  split_and!.
  - at_key.
  - unfold MultiTermvectorItem.Source; cbv zeta.
    destruct (MultiTermvectorItem.perFieldAnalyzer s) as [m|].
    + destruct (decide (m = ∅)) as [->|Hm].
      * rewrite (bool_decide_eq_false_2 (0 < _)%nat) by (rewrite map_size_empty; lia).
        rewrite (bool_decide_eq_true_2 (_ = _)) by done. past_keys. apply lookup_empty.
      * rewrite (bool_decide_eq_true_2 (0 < _)%nat)
          by (apply Nat.neq_0_lt_0; by rewrite map_size_non_empty_iff).
        rewrite (bool_decide_eq_false_2 (_ = _)) by done. apply lookup_insert_eq.
    + past_keys. apply lookup_empty.
  - at_key.
Qed.

(** X21. An item source holds no key outside the fifteen the code
    writes. *)
Theorem item_source_keys (s : MultiTermvectorItem.t) (key : string) :
  is_Some (MultiTermvectorItem.Source s !! key) -> key ∈ item_keys.
Proof.
  intros Hkey. unfold item_keys.
  repeat match goal with
  | |- key ∈ ?k :: _ =>
      destruct (decide (k = key)) as [<-|?]; [by left | right]
  end.
  exfalso. revert Hkey.
  unfold MultiTermvectorItem.Source; cbv zeta.
  destruct (MultiTermvectorItem.perFieldAnalyzer s) as [m|];
    try case_bool_decide; past_keys; rewrite lookup_empty; by intros [? ?].
Qed.

(** X22. The body of the request is one key, [docs], holding the sources
    of the items in the order they were added; items added by several
    calls of [Add] follow one another. *)
Theorem service_source_docs (s : MultiTermvectorService.t)
    (xs ys : list MultiTermvectorItem.t) :
  MultiTermvectorService.Source s
    = {["docs" := VList ((fun doc => VObject (MultiTermvectorItem.Source doc))
                           <$> MultiTermvectorService.docs s)]} /\
  MultiTermvectorService.docs (MultiTermvectorService.Add ys (MultiTermvectorService.Add xs s))
    = (MultiTermvectorService.docs s ++ xs ++ ys)%list /\
  MultiTermvectorService.Add ys (MultiTermvectorService.Add xs s)
    = MultiTermvectorService.Add (xs ++ ys) s.
Proof.
  unfold MultiTermvectorService.Source, MultiTermvectorService.Add; simpl.
  split_and!; [done | by rewrite app_assoc | by rewrite app_assoc].
Qed.

Lemma Validate_passes (s : MultiTermvectorService.t) :
  MultiTermvectorService.index s ≠ "" -> MultiTermvectorService.typ s ≠ "" ->
  MultiTermvectorService.Validate s = None.
Proof.
  intros Hi Ht. unfold MultiTermvectorService.Validate.
  rewrite (bool_decide_eq_false_2 (MultiTermvectorService.index s = "")),
          (bool_decide_eq_false_2 (MultiTermvectorService.typ s = "")) by done.
  reflexivity.
Qed.

(** The query parameters [buildURL] makes. *)
Lemma buildURL_full (s : MultiTermvectorService.t) (path : string) :
  MultiTermvectorService.index s ≠ "" -> MultiTermvectorService.typ s ≠ "" ->
  Expand "/{index}/{type}/_mtermvectors"
         (<["type" := MultiTermvectorService.typ s]>
            (<["index" := MultiTermvectorService.index s]> ∅)) = (path, None) ->
  exists params, buildURL s = Ok (path, params).
Proof.
  intros Hi Ht Hexp. unfold MultiTermvectorService.buildURL.
  rewrite !bool_decide_eq_true_2 by done. simpl. rewrite Hexp. eauto.
Qed.

(** X23. A request with index and type goes out once, as a GET to the
    path expanded from the template with both names, with the sources of
    the items as its body; the two shorter paths of [buildURL] are never
    used by [Do]. *)
Theorem Do_sends_to_full_path (s : MultiTermvectorService.t) (w : World) (path : string) :
  MultiTermvectorService.index s ≠ "" -> MultiTermvectorService.typ s ≠ "" ->
  Expand "/{index}/{type}/_mtermvectors"
         (<["type" := MultiTermvectorService.typ s]>
            (<["index" := MultiTermvectorService.index s]> ∅)) = (path, None) ->
  exists params,
    buildURL s = Ok (path, params) /\
    calls (Do s w).2 =
      (calls w ++ [Perform "GET" path params
                     (VObject (MultiTermvectorService.Source s))])%list.
Proof.
  intros Hi Ht Hexp.
  destruct (buildURL_full s path Hi Ht Hexp) as (params & Hurl).
  exists params. split; [done|].
  unfold MultiTermvectorService.Do.
  rewrite (Validate_passes s Hi Ht), Hurl.
  unfold Client.PerformRequest, Client.exchange.
  repeat case_match; simplify_eq/=; done.
Qed.

(** X24. When the template cannot be expanded, [Do] hands that error on
    and nothing is sent. *)
Theorem Do_template_failure (s : MultiTermvectorService.t) (w : World)
    (path msg : string) :
  MultiTermvectorService.index s ≠ "" -> MultiTermvectorService.typ s ≠ "" ->
  Expand "/{index}/{type}/_mtermvectors"
         (<["type" := MultiTermvectorService.typ s]>
            (<["index" := MultiTermvectorService.index s]> ∅)) = (path, Some msg) ->
  Do s w = (Err (ErrTemplate msg), w).
Proof.
  intros Hi Ht Hexp. unfold MultiTermvectorService.Do.
  rewrite (Validate_passes s Hi Ht). unfold MultiTermvectorService.buildURL.
  rewrite !bool_decide_eq_true_2 by done. simpl. by rewrite Hexp.
Qed.


(** X26. Without an index [buildURL] does not expand anything: the path
    is ["/_mtermvectors"] whatever the type, which is left out, and
    building cannot fail. *)
Theorem buildURL_without_index (s : MultiTermvectorService.t) :
  MultiTermvectorService.index s = "" ->
  exists params, buildURL s = Ok ("/_mtermvectors", params).
Proof.
  intros Hi. unfold MultiTermvectorService.buildURL.
  rewrite !(bool_decide_eq_false_2 (MultiTermvectorService.index s ≠ ""))
    by (intros H; by apply H).
  simpl. eauto.
Qed.

Lemma built_snoc (l : list Setting) (x : Setting) :
  built (l ++ [x]) = configure (built l) x.
Proof. unfold built. by rewrite foldl_app. Qed.

(** X27. There is no setter for [preference], [realtime] or [refresh]:
    on a service built by [NewMultiTermvectorService] and the exported
    setters they are never set, so the only query parameter [buildURL]
    can produce is [pretty=1]. *)
Theorem built_service_params (l : list Setting) :
  MultiTermvectorService.preference (built l) = "" /\
  MultiTermvectorService.realtime (built l) = None /\
  MultiTermvectorService.refresh (built l) = None /\
  (forall path params, buildURL (built l) = Ok (path, params) ->
     params = if MultiTermvectorService.pretty (built l)
              then {["pretty" := ["1"]]} else ∅).
Proof.
  assert (MultiTermvectorService.preference (built l) = "" /\
          MultiTermvectorService.realtime (built l) = None /\
          MultiTermvectorService.refresh (built l) = None) as (Hp & Hr & Hf).
  { induction l as [|x l IH] using rev_ind; [done|].
    rewrite built_snoc. by destruct x. }
  split_and!; try done.
  intros path params. unfold MultiTermvectorService.buildURL.
  rewrite Hp, Hr. simpl.
  repeat case_match; intros; simplify_eq/=; done.
Qed.

End MultiTermvectorSteps.

(** ** The further statements at work on concrete runs *)

Lemma Next_sentinels_witness :
  (ScanCursor.Next accept_any status_2xx ex_spent ex_world).1.1 = Failed EOS.
Proof.
  apply (proj1 (Next_sentinels accept_any status_2xx ex_spent ex_world
                  (SearchResult.mk "" None) eq_refl)).
  split; [simpl; lia | reflexivity].
Defined.

Lemma Next_failure_keeps_cursor_witness :
  ScanCursor.currentPage (ScanCursor.Next accept_any status_2xx ex_cursor ex_down).1.2
    = ScanCursor.currentPage ex_cursor /\
  (Failed (ErrTransport "connection refused") ≠ Failed ErrDecode ->
   (ScanCursor.Next accept_any status_2xx ex_cursor ex_down).1.2 = ex_cursor).
Proof.
  apply (Next_failure_keeps_cursor accept_any status_2xx ex_cursor _ ex_down
           (ScanCursor.Next accept_any status_2xx ex_cursor ex_down).2
           (Failed (ErrTransport "connection refused"))).
  - vm_compute. reflexivity.
  - discriminate.
Defined.

Lemma Next_page_postcondition_witness :
  (ScanCursor.Next accept_any status_2xx ex_cursor ex_world).1.2
    = ScanCursor.mk (Some ex_A) "" false false 1.
Proof.
  apply (proj1 (Next_page_postcondition accept_any status_2xx ex_cursor _ ex_world
                  (ScanCursor.Next accept_any status_2xx ex_cursor ex_world).2 ex_A
                  ltac:(vm_compute; reflexivity))).
Defined.

Lemma Next_transport_failure_witness :
  (ScanCursor.Next accept_any status_2xx ex_cursor ex_down).1
    = (Failed (ErrTransport "connection refused"), ex_cursor).
Proof.
  apply (Next_transport_failure accept_any status_2xx ex_cursor ex_down ex_seed
           "connection refused" []).
  - reflexivity.
  - left. simpl. lia.
  - discriminate.
  - reflexivity.
  - reflexivity.
Defined.

Lemma Next_rejected_reply_witness :
  (ScanCursor.Next accept_any status_2xx ex_cursor
     (mkWorld [Reply ex_unavailable] [] [])).1
    = (Failed (ErrResponse "bad status"), ex_cursor).
Proof.
  apply (Next_rejected_reply accept_any status_2xx ex_cursor
           (mkWorld [Reply ex_unavailable] [] []) ex_seed ex_unavailable "bad status" []).
  - reflexivity.
  - left. simpl. lia.
  - discriminate.
  - reflexivity.
  - reflexivity.
  - reflexivity.
Defined.


Lemma Next_refused_url_witness :
  ScanCursor.Next refuse_all status_2xx ex_cursor ex_world
    = (Failed (ErrNewRequest "invalid URL"), ex_cursor, ex_world).
Proof.
  apply (Next_refused_url refuse_all status_2xx ex_cursor ex_world ex_seed "invalid URL").
  - reflexivity.
  - left. simpl. lia.
  - discriminate.
  - reflexivity.
Defined.

Lemma Next_keeps_token_witness :
  (ScanCursor.Next accept_any status_2xx ex_cursor
     (mkWorld [Reply (mkResponse 200 (Object ex_no_token))] [] [])).1.1
    = Page (SearchResult.mk "token0" (Some (SearchHits.mk 3 ["doc1"]))).
Proof.
  apply (Next_keeps_token accept_any status_2xx ex_cursor
           (mkWorld [Reply (mkResponse 200 (Object ex_no_token))] [] [])
           ex_seed (mkResponse 200 (Object ex_no_token)) ex_no_token
           (SearchHits.mk 3 ["doc1"]) []).
  - reflexivity.
  - left. simpl. lia.
  - discriminate.
  - reflexivity.
  - reflexivity.
  - reflexivity.
  - reflexivity.
  - left. reflexivity.
  - reflexivity.
  - reflexivity.
Defined.

Lemma Next_type_error_still_stores_witness :
  (ScanCursor.Next accept_any status_2xx ex_cursor
     (mkWorld [Reply (mkResponse 200 (Object ex_bad_total))] [] [])).1.1
    = Failed ErrDecode /\
  ScanCursor.currentPage
    (ScanCursor.Next accept_any status_2xx ex_cursor
       (mkWorld [Reply (mkResponse 200 (Object ex_bad_total))] [] [])).1.2 = 0 /\
  ScanCursor.Results
    (ScanCursor.Next accept_any status_2xx ex_cursor
       (mkWorld [Reply (mkResponse 200 (Object ex_bad_total))] [] [])).1.2
    = Some (SearchResult.mk "token9" (Some (SearchHits.mk 3 ["doc9"]))).
Proof.
  apply (Next_type_error_still_stores accept_any status_2xx ex_cursor
           (mkWorld [Reply (mkResponse 200 (Object ex_bad_total))] [] [])
           ex_seed (mkResponse 200 (Object ex_bad_total)) ex_bad_total
           "token9" ["doc9"] []).
  - reflexivity.
  - left. simpl. lia.
  - discriminate.
  - reflexivity.
  - reflexivity.
  - reflexivity.
  - reflexivity.
  - reflexivity.
  - reflexivity.
Defined.

Lemma fresh_cursor_always_asks_witness :
  calls (ScanCursor.Next accept_any status_2xx ex_cursor ex_down).2
    = [HttpDo (mkRequest "POST" "/_search/scroll?scroll=5m" (BodyString "token0"))].
Proof.
  apply (fresh_cursor_always_asks accept_any status_2xx ex_cursor ex_down ex_seed).
  - reflexivity.
  - simpl. lia.
  - discriminate.
  - reflexivity.
Defined.

Lemma quiet_without_debug_witness :
  output (ScanCursor.run accept_any status_2xx 4 ex_cursor ex_world).2 = [].
Proof.
  apply (quiet_without_debug accept_any status_2xx 4 ex_cursor ex_world). reflexivity.
Defined.

Lemma EOS_is_absorbing_witness :
  (ScanCursor.run accept_any status_2xx 6 ex_cursor ex_world).1.1
    = ([Page ex_A; Page ex_B; Page ex_C] ++ Failed EOS :: [Failed EOS; Failed EOS])%list /\
  [Failed EOS; Failed EOS] = replicate 2 (Failed EOS).
Proof.
  assert ((ScanCursor.run accept_any status_2xx 6 ex_cursor ex_world).1.1
          = ([Page ex_A; Page ex_B; Page ex_C] ++ Failed EOS :: [Failed EOS; Failed EOS])%list)
    as Hrun by (vm_compute; reflexivity).
  split; [exact Hrun|].
  exact (EOS_is_absorbing accept_any status_2xx 6 ex_cursor ex_world
           [Page ex_A; Page ex_B; Page ex_C] [Failed EOS; Failed EOS] Hrun).
Defined.

Lemma step_count_counts_pages_witness :
  ScanCursor.currentPage (ScanCursor.run accept_any status_2xx 6 ex_cursor ex_world).1.2
    = ScanCursor.currentPage ex_cursor
      + pages_returned (ScanCursor.run accept_any status_2xx 6 ex_cursor ex_world).1.1.
Proof.
  apply (step_count_counts_pages accept_any status_2xx 6 ex_cursor ex_world).
  - vm_compute. discriminate.
  - vm_compute. discriminate.
Defined.

Lemma Do_refused_url_witness :
  ScanService.Do plain_path refuse_all status_2xx ex_service ex_server
    = (Err (ErrNewRequest "invalid URL"), ex_server).
Proof.
  apply (Do_refused_url plain_path refuse_all status_2xx ex_service ex_server "invalid URL").
  reflexivity.
Defined.

Lemma Do_sends_one_request_witness :
  calls (ScanService.Do plain_path accept_any status_2xx ex_service ex_down).2
    = ([] ++ [HttpDo (initiation_request plain_path ex_service)])%list /\
  script (ScanService.Do plain_path accept_any status_2xx ex_service ex_down).2 = [].
Proof.
  apply (Do_sends_one_request plain_path accept_any status_2xx ex_service ex_down).
  reflexivity.
Defined.


Lemma Do_then_Next_sends_token_witness :
  (ScanService.Do plain_path accept_any status_2xx ex_service ex_server).1 = Ok ex_cursor /\
  calls (ScanCursor.Next accept_any status_2xx ex_cursor
           (ScanService.Do plain_path accept_any status_2xx ex_service ex_server).2).2
    = [HttpDo (initiation_request plain_path ex_service);
       HttpDo (mkRequest "POST" "/_search/scroll?scroll=5m" (BodyString "token0"))].
Proof.
  apply (Do_then_Next_sends_token plain_path accept_any status_2xx ex_service ex_server
           ex_seed (mkResponse 200 (Object (Json.of_result ex_seed))) ex_pages).
  - reflexivity.
  - reflexivity.
  - repeat split.
  - discriminate.
  - reflexivity.
Defined.

Lemma initiation_params_witness :
  "size" ∈ ["search_type"; "pretty"; "scroll"; "size"].
Proof.
  apply (proj2 (proj2 (proj2 (initiation_params (ScanService.Size 10 ex_service)))) "size").
  vm_compute. eauto.
Defined.

Lemma path_with_index_witness :
  ScanService.path plain_path (ScanService.Type_ "event" (ScanService.Index "app" ex_service))
    = "/logs,app/event/_search".
Proof.
  apply (path_with_index plain_path
           (ScanService.Type_ "event" (ScanService.Index "app" ex_service))).
  discriminate.
Defined.

Lemma item_source_keys_witness : "parant" ∈ item_keys.
Proof.
  apply (item_source_keys ex_item "parant"). vm_compute. eauto.
Defined.

Lemma Do_sends_to_full_path_witness :
  exists params,
    MultiTermvectorService.buildURL no_expansion ex_request
      = Ok ("/{index}/{type}/_mtermvectors", params) /\
    calls (MultiTermvectorService.Do no_expansion status_2xx ex_request ex_down).2
      = ([] ++ [Perform "GET" "/{index}/{type}/_mtermvectors" params
                  (VObject (MultiTermvectorService.Source ex_request))])%list.
Proof.
  apply (Do_sends_to_full_path no_expansion status_2xx ex_request ex_down
           "/{index}/{type}/_mtermvectors").
  - discriminate.
  - discriminate.
  - reflexivity.
Defined.

Lemma Do_template_failure_witness :
  MultiTermvectorService.Do bad_expansion status_2xx ex_request ex_down
    = (Err (ErrTemplate "malformed template"), ex_down).
Proof.
  apply (Do_template_failure bad_expansion status_2xx ex_request ex_down
           "" "malformed template").
  - discriminate.
  - discriminate.
  - reflexivity.
Defined.


Lemma buildURL_without_index_witness :
  exists params,
    MultiTermvectorService.buildURL bad_expansion
      (MultiTermvectorService.Type_ "doc" MultiTermvectorService.NewMultiTermvectorService)
    = Ok ("/_mtermvectors", params).
Proof.
  apply (buildURL_without_index bad_expansion
           (MultiTermvectorService.Type_ "doc"
              MultiTermvectorService.NewMultiTermvectorService)).
  reflexivity.
Defined.

Lemma built_service_params_witness :
  MultiTermvectorService.buildURL no_expansion
    (built [SetIndex "logs"; SetType "doc"; SetAdd [ex_item]])
    = Ok ("/{index}/{type}/_mtermvectors", ∅) /\
  (∅ : Values)
    = (if MultiTermvectorService.pretty (built [SetIndex "logs"; SetType "doc"; SetAdd [ex_item]])
       then {["pretty" := ["1"]]} else ∅).
Proof.
  assert (MultiTermvectorService.buildURL no_expansion
            (built [SetIndex "logs"; SetType "doc"; SetAdd [ex_item]])
          = Ok ("/{index}/{type}/_mtermvectors", ∅)) as Hurl by (vm_compute; reflexivity).
  split; [exact Hurl|].
  exact (proj2 (proj2 (proj2 (built_service_params no_expansion
                                [SetIndex "logs"; SetType "doc"; SetAdd [ex_item]])))
           "/{index}/{type}/_mtermvectors" ∅ Hurl).
Defined.
